(** * Patient booking core of [model/patient.py]

    A shallow embedding of the appointment functions of the patient menu:
    [get_assigned_mhwp], [load_mhwp_schedule], [extract_available_slots],
    both definitions of [patient_select_slots] and the cancellation branch
    of [handle_patient_menu].

    Modelling conventions.
    - A Python [str] is the list of its code points.
    - A file is the sequence of its CSV records, each a sequence of fields;
      quoting and line terminators are below this level.  The file system
      is a finite map from paths to file contents.
    - A row produced by [csv.DictReader] is an insertion-ordered dict; its
      keys are field names or [None] (the reader's [restkey]), its values
      are strings, [None] (the reader's [restval]) or a list of strings.
    - Opening a path for writing or appending always succeeds: a failure
      of [open] itself (an [OSError]: a missing directory, permissions) is
      not part of the file model, and nothing is stated about a run that
      ends in one.
    - [input()] reads the next line of a finite standard input and raises
      [EOFError] when there is none.
    - Printing ([print], [tabulate]) has no effect on the files and is not
      part of the state. *)

From Stdlib Require Import ZArith NArith Ascii String.
From stdpp Require Import base option list sorting gmap.

Local Open Scope Z_scope.

(** ** Strings *)

Definition pystr : Type := list N.

(** A literal of the source, written in ASCII. *)
Definition lit (s : string) : pystr :=
  N_of_ascii <$> list_ascii_of_string s.

(** The two occupancy markers, U+2B1C and U+2B1B. *)
Definition OPEN : pystr := [11036%N].
Definition BOOKED : pystr := [11035%N].

(** [str.isspace] on one character: the white space of the Unicode
    character database as CPython tabulates it. *)
Definition isspace (c : N) : bool :=
  ((9 <=? c) && (c <=? 13) || (28 <=? c) && (c <=? 32)
   || (c =? 133) || (c =? 160) || (c =? 5760)
   || (8192 <=? c) && (c <=? 8202)
   || (c =? 8232) || (c =? 8233) || (c =? 8239) || (c =? 8287)
   || (c =? 12288))%N.

Fixpoint lstrip (s : pystr) : pystr :=
  match s with
  | c :: s' => if isspace c then lstrip s' else s
  | [] => []
  end.

Definition rstrip (s : pystr) : pystr := reverse (lstrip (reverse s)).

(** [s.strip()] *)
Definition strip (s : pystr) : pystr := rstrip (lstrip s).

(** [s.split(sep)] for a one-character separator: never the empty list. *)
Fixpoint split (sep : N) (s : pystr) : list pystr :=
  match s with
  | [] => [[]]
  | c :: s' =>
      if (c =? sep)%N then [] :: split sep s'
      else match split sep s' with
           | t :: ts => (c :: t) :: ts
           | [] => [[c]]
           end
  end.

Definition comma : N := 44%N.

(** ** Exceptions and results *)

Inductive exn : Set :=
  | KeyError | AttributeError | IndexError | ValueError | TypeError | EOFError
  | FileNotFoundError.

Inductive res (A : Type) : Type :=
  | Ok (a : A)
  | Raise (e : exn).
Arguments Ok {A} a.
Arguments Raise {A} e.

#[global] Instance res_bind : MBind res := fun A B f m =>
  match m with
  | Ok a => f a
  | Raise e => Raise e
  end.

#[global] Instance res_ret : MRet res := fun A a => Ok a.

(** Evaluate [f] on every element, left to right, stopping at the first
    exception. *)
Fixpoint rmap {A B} (f : A → res B) (l : list A) : res (list B) :=
  match l with
  | [] => Ok []
  | a :: l' => b ← f a ; bs ← rmap f l' ; Ok (b :: bs)
  end.

(** A comprehension [[x for x in l if p(x)]] whose condition may raise. *)
Fixpoint rfilter {A} (p : A → res bool) (l : list A) : res (list A) :=
  match l with
  | [] => Ok []
  | a :: l' =>
      b ← p a ; r ← rfilter p l' ; Ok (if b : bool then a :: r else r)
  end.

(** ** Dict rows *)

Inductive pyval : Type :=
  | VStr (s : pystr)
  | VNone
  | VList (l : list pystr).

Definition pykey : Type := option pystr.

#[global] Instance pyval_eq_dec : EqDecision pyval.
Proof. solve_decision. Defined.

(** An insertion-ordered dict with unique keys. *)
Definition row : Type := list (pykey * pyval).

Fixpoint dict_get (k : pykey) (d : row) : option pyval :=
  match d with
  | [] => None
  | (k', v) :: d' => if decide (k' = k) then Some v else dict_get k d'
  end.

(** [d[k] = v]: an existing key keeps its position, a new one goes last. *)
Fixpoint dict_set (k : pykey) (v : pyval) (d : row) : row :=
  match d with
  | [] => [(k, v)]
  | (k', v') :: d' =>
      if decide (k' = k) then (k', v) :: d' else (k', v') :: dict_set k v d'
  end.

Definition dict_keys (d : row) : list pykey := d.*1.

(** [d[k]] *)
Definition getitem (k : pykey) (d : row) : res pyval :=
  match dict_get k d with
  | Some v => Ok v
  | None => Raise KeyError
  end.

(** [d[name]] for a field name of the source. *)
Definition field (name : string) (d : row) : res pyval :=
  getitem (Some (lit name)) d.

(** [v == s] for a string [s]. *)
Definition eq_str (v : pyval) (s : pystr) : bool :=
  match v with
  | VStr t => bool_decide (t = s)
  | _ => false
  end.

(** [v.strip()]: only strings have the method. *)
Definition val_strip (v : pyval) : res pystr :=
  match v with
  | VStr s => Ok (strip s)
  | _ => Raise AttributeError
  end.

(** ** CSV files *)

Abbreviation csvfile := (list (list pystr)) (only parsing).

(** One row of [csv.DictReader]: the fields zipped with the field names,
    the surplus fields under the key [None], the missing ones [None]. *)
Definition mk_row (fieldnames fields : list pystr) : row :=
  let d := foldl (fun d kv => dict_set (Some kv.1) (VStr kv.2) d) []
                 (zip fieldnames fields) in
  if (length fieldnames <? length fields)%nat
  then dict_set None (VList (drop (length fieldnames) fields)) d
  else foldl (fun d k => dict_set (Some k) VNone d) d
             (drop (length fields) fieldnames).

(** [csv.DictReader(file)]: the first record names the fields, blank
    records after it are skipped. *)
Definition dict_reader (f : csvfile) : list row :=
  match f with
  | [] => []
  | fieldnames :: records =>
      mk_row fieldnames <$> filter (fun r => r ≠ []) records
  end.

(** What [csv.writer] writes for one value; [repr_list] is [str] of a list
    of strings. *)
Definition cell_text (repr_list : list pystr → pystr) (v : pyval) : pystr :=
  match v with
  | VStr s => s
  | VNone => []
  | VList l => repr_list l
  end.

Definition key_text (k : pykey) : pystr := default [] k.

(** [DictWriter._dict_to_list]: a key outside [fieldnames] is an error, a
    missing field is written empty. *)
Definition dict_to_list (repr_list : list pystr → pystr)
    (fieldnames : list pykey) (d : row) : res (list pystr) :=
  if bool_decide (Forall (fun k => k ∈ fieldnames) (dict_keys d))
  then Ok ((fun k => cell_text repr_list (default (VStr []) (dict_get k d)))
             <$> fieldnames)
  else Raise ValueError.

(** ** The world: files and standard input *)

Record world : Type := World {
  files : gmap pystr csvfile;
  stdin : list pystr
}.

Definition set_file (path : pystr) (f : csvfile) (w : world) : world :=
  World (<[path := f]> (files w)) (stdin w).

(** [exists(path)] *)
Definition file_exists (path : pystr) (w : world) : bool :=
  bool_decide (is_Some (files w !! path)).

(** [input(prompt)] *)
Definition input (w : world) : world * res pystr :=
  match stdin w with
  | [] => (w, Raise EOFError)
  | line :: rest => (World (files w) rest, Ok line)
  end.

(** ** [get_assigned_mhwp] *)

(** The loop over the reader: the first row of the patient decides. *)
Fixpoint find_assignment (patient_username : pystr) (rows : list row)
  : res pyval :=
  match rows with
  | [] => Ok VNone
  | r :: rows' =>
      p ← field "patient_username" r ;
      if eq_str p patient_username then field "mhwp_username" r
      else find_assignment patient_username rows'
  end.

Definition get_assigned_mhwp (patient_username assignments_file : pystr)
    (w : world) : world * pyval :=
  match files w !! assignments_file with
  | None => (w, VNone)
  | Some f =>
      match find_assignment patient_username (dict_reader f) with
      | Ok v => (w, v)
      | Raise _ => (w, VNone)
      end
  end.

(** ** [extract_available_slots] *)

(** The loop over [enumerate(slot_columns)], from index [idx] on. *)
Fixpoint scan_slots (r0 : row) (idx : Z) (slot_columns : list pykey)
  : res (list (Z * pykey)) :=
  match slot_columns with
  | [] => Ok []
  | slot_key :: rest =>
      v ← getitem slot_key r0 ;
      s ← val_strip v ;
      found ← scan_slots r0 (idx + 1) rest ;
      Ok (if bool_decide (s = OPEN) then (idx, slot_key) :: found else found)
  end.

(** [list(date_schedule[0].keys())[3:]] *)
Definition slot_columns (r0 : row) : list pykey := drop 3 (dict_keys r0).

Definition extract_available_slots (date_schedule : list row)
  : res (list (Z * pykey)) :=
  match date_schedule with
  | [] => Ok []
  | r0 :: _ => scan_slots r0 0 (slot_columns r0)
  end.

(** ** Indexing and writing *)

(** [l[i]] for a Python list: a negative index counts from the end. *)
Definition list_index {A} (l : list A) (i : Z) : res A :=
  let n := Z.of_nat (length l) in
  let j := if i <? 0 then i + n else i in
  if (0 <=? j) && (j <? n)
  then match l !! Z.to_nat j with
       | Some a => Ok a
       | None => Raise IndexError
       end
  else Raise IndexError.

(** Position of the first [true]: where [date_schedule[0]] sits in
    [all_schedules]. *)
Fixpoint first_true (hits : list bool) : option nat :=
  match hits with
  | [] => None
  | true :: _ => Some O
  | false :: hits' => S <$> first_true hits'
  end.

(** The rows kept by a comprehension whose conditions evaluated to [hits]. *)
Fixpoint select_rows {A} (hits : list bool) (l : list A) : list A :=
  match hits, l with
  | true :: hits', a :: l' => a :: select_rows hits' l'
  | false :: hits', _ :: l' => select_rows hits' l'
  | _, _ => []
  end.

Inductive outcome : Set :=
  | ScheduleFileNotFound
  | NoScheduleForMhwp
  | NoScheduleForDate
  | NoAvailableSlots
  | BookedSuccessfully
  | Error (e : exn).

Section Builtins.

(** Three built-ins of the interpreter that depend on the Unicode
    character database: [str.isdigit], [int] of a string ([None] for
    [ValueError]) and [str] of a list of strings. *)
Variable isdigit : pystr → bool.
Variable int : pystr → option Z.
Variable repr_list : list pystr → pystr.

(** [DictWriter.writerows] after the records [written]: the rows before
    the first bad one reach the file. *)
Fixpoint writerows (fieldnames : list pykey) (rows : list row)
    (written : csvfile) : csvfile * option exn :=
  match rows with
  | [] => (written, None)
  | r :: rows' =>
      match dict_to_list repr_list fieldnames r with
      | Ok record => writerows fieldnames rows' (written ++ [record])
      | Raise e => (written, Some e)
      end
  end.

(** [DictWriter.writeheader] then [writerows] into an empty file. *)
Definition write_table (fieldnames : list pykey) (rows : list row)
  : csvfile * option exn :=
  writerows fieldnames rows [key_text <$> fieldnames].

(** ** The selection loop *)

(** [[int(idx.strip()) for idx in line.strip().split(",")
      if idx.strip().isdigit()]] *)
Definition parse_indices (line : pystr) : res (list Z) :=
  rmap (fun idx => match int (strip idx) with
                   | Some n => Ok n
                   | None => Raise ValueError
                   end)
       (filter (fun idx => isdigit (strip idx)) (split comma (strip line))).

(** The condition under which the loop breaks. *)
Definition valid_selection (available_slots : list (Z * pykey))
    (selected_indices : list Z) : bool :=
  forallb (fun idx => bool_decide (idx ∈ available_slots.*1))
          selected_indices
  && (length selected_indices <=? 2)%nat.

(** [while True]: one line of input per attempt; returns the input left
    and the accepted indices. *)
Fixpoint selection_loop (available_slots : list (Z * pykey))
    (lines : list pystr) : list pystr * res (list Z) :=
  match lines with
  | [] => ([], Raise EOFError)
  | line :: rest =>
      match parse_indices line with
      | Ok selected_indices =>
          if valid_selection available_slots selected_indices
          then (rest, Ok selected_indices)
          else selection_loop available_slots rest
      | Raise ValueError => selection_loop available_slots rest
      | Raise e => (rest, Raise e)
      end
  end.

(** ** [patient_select_slots], second definition (lines 185-269) *)

(** What the function has in hand when it reaches the selection loop. *)
Record chosen_date : Type := ChosenDate {
  all_schedules : list row;
  first_pos : nat;
  selected_date : pystr;
  available_slots : list (Z * pykey)
}.

(** Lines 195-224: the schedule of the MHWP, the date, the open slots. *)
Definition choose_date (mhwp_username schedule_file : pystr) (w : world)
  : world * (outcome + chosen_date) :=
  match files w !! schedule_file with
  | None => (w, inl (Error FileNotFoundError))
  | Some f =>
    match rfilter (fun r => v ← field "mhwp_username" r;
                            Ok (eq_str v mhwp_username)) (dict_reader f) with
    | Raise e => (w, inl (Error e))
    | Ok [] => (w, inl NoScheduleForMhwp)
    | Ok all =>
      match input w with
      | (w1, Raise e) => (w1, inl (Error e))
      | (w1, Ok line) =>
        let date := strip line in
        match rmap (fun r => v ← field "Date" r; Ok (eq_str v date)) all with
        | Raise e => (w1, inl (Error e))
        | Ok hits =>
          match first_true hits with
          | None => (w1, inl NoScheduleForDate)
          | Some j =>
            match extract_available_slots (select_rows hits all) with
            | Raise e => (w1, inl (Error e))
            | Ok [] => (w1, inl NoAvailableSlots)
            | Ok avail => (w1, inr (ChosenDate all j date avail))
            end
          end
        end
      end
    end
  end.

(** Lines 243-245: [date_schedule[0]] after the marking loop. *)
Fixpoint mark_slots (avail : list (Z * pykey)) (selected_indices : list Z)
    (r0 : row) : res row :=
  match selected_indices with
  | [] => Ok r0
  | idx :: rest =>
      slot ← list_index avail idx;
      mark_slots avail rest (dict_set slot.2 (VStr BOOKED) r0)
  end.

(** Lines 257-264: one record per selected index, after [written]. *)
Fixpoint append_appointments (patient_username mhwp_username date : pystr)
    (avail : list (Z * pykey)) (selected_indices : list Z)
    (written : csvfile) : csvfile * option exn :=
  match selected_indices with
  | [] => (written, None)
  | idx :: rest =>
      match list_index avail idx with
      | Ok slot =>
          append_appointments patient_username mhwp_username date avail rest
            (written ++ [[patient_username; mhwp_username; date;
                          key_text slot.2]])
      | Raise e => (written, Some e)
      end
  end.

(** Lines 242-266.  [date_schedule[0]] is the row of [all_schedules] at
    [first_pos], so marking it changes [all_schedules] in place. *)
Definition book (patient_username mhwp_username schedule_file
    appointments_file : pystr) (c : chosen_date)
    (selected_indices : list Z) (w : world) : world * outcome :=
  match all_schedules c !! first_pos c with
  | None => (w, Error IndexError)
  | Some r0 =>
    match mark_slots (available_slots c) selected_indices r0 with
    | Raise e => (w, Error e)
    | Ok r0' =>
      let rows := <[first_pos c := r0']> (all_schedules c) in
      match write_table (dict_keys r0') rows with
      | (written, Some e) => (set_file schedule_file written w, Error e)
      | (written, None) =>
        let w1 := set_file schedule_file written w in
        match append_appointments patient_username mhwp_username
                (selected_date c) (available_slots c) selected_indices
                (default [] (files w1 !! appointments_file)) with
        | (ledger, Some e) => (set_file appointments_file ledger w1, Error e)
        | (ledger, None) =>
            (set_file appointments_file ledger w1, BookedSuccessfully)
        end
      end
    end
  end.

Definition patient_select_slots (patient_username mhwp_username
    schedule_file appointments_file : pystr) (w : world) : world * outcome :=
  if file_exists schedule_file w then
    match choose_date mhwp_username schedule_file w with
    | (w1, inl o) => (w1, o)
    | (w1, inr c) =>
      match selection_loop (available_slots c) (stdin w1) with
      | (rest, Raise e) => (World (files w1) rest, Error e)
      | (rest, Ok selected_indices) =>
          book patient_username mhwp_username schedule_file
               appointments_file c selected_indices (World (files w1) rest)
      end
    end
  else (w, ScheduleFileNotFound).

(** ** [patient_select_slots], first definition (lines 78-162)

    Written statement by statement in the monad of its [try] block: a
    computation changes the world and either goes on with a value or
    leaves the function with an outcome ([return], or an exception
    caught by [except Exception]). *)

Definition T (A : Type) : Type := world → world * (outcome + A).

Definition t_bind {A B} (m : T A) (k : A → T B) : T B := fun w =>
  match m w with
  | (w1, inr a) => k a w1
  | (w1, inl o) => (w1, inl o)
  end.

#[local] Instance t_mbind : MBind T := fun A B k m => t_bind m k.

Definition leave {A} (o : outcome) : T A := fun w => (w, inl o).

Definition try {A} (r : res A) : T A := fun w =>
  match r with
  | Ok a => (w, inr a)
  | Raise e => (w, inl (Error e))
  end.

Definition try_input : T pystr := fun w =>
  match input w with
  | (w1, Ok line) => (w1, inr line)
  | (w1, Raise e) => (w1, inl (Error e))
  end.

(** [open(path, "r")] and the records read from it. *)
Definition read_file (path : pystr) : T csvfile := fun w =>
  match files w !! path with
  | Some f => (w, inr f)
  | None => (w, inl (Error FileNotFoundError))
  end.

(** The records a writer left in [path], and the exception it raised. *)
Definition written_to (path : pystr) (r : csvfile * option exn) : T unit :=
  fun w =>
    match r.2 with
    | None => (set_file path r.1 w, inr tt)
    | Some e => (set_file path r.1 w, inl (Error e))
    end.

(** The contents [open(path, "a")] starts from. *)
Definition open_append (path : pystr) : T csvfile := fun w =>
  (w, inr (default [] (files w !! path))).

Definition ask_indices (avail : list (Z * pykey)) : T (list Z) := fun w =>
  match selection_loop avail (stdin w) with
  | (rest, Ok selected_indices) => (World (files w) rest, inr selected_indices)
  | (rest, Raise e) => (World (files w) rest, inl (Error e))
  end.

Definition patient_select_slots_first (patient_username mhwp_username
    schedule_file appointments_file : pystr) (w : world) : world * outcome :=
  if negb (file_exists schedule_file w) then (w, ScheduleFileNotFound)
  else
    let body : T outcome :=
      f ← read_file schedule_file;
      all ← try (rfilter (fun r => v ← field "mhwp_username" r;
                                    Ok (eq_str v mhwp_username))
                          (dict_reader f));
      if bool_decide (all = []) then leave NoScheduleForMhwp else
      line ← try_input;
      let date := strip line in
      hits ← try (rmap (fun r => v ← field "Date" r; Ok (eq_str v date))
                        all);
      let date_schedule := select_rows hits all in
      if bool_decide (date_schedule = []) then leave NoScheduleForDate else
      avail ← try (extract_available_slots date_schedule);
      if bool_decide (avail = []) then leave NoAvailableSlots else
      selected_indices ← ask_indices avail;
      r0 ← try (list_index date_schedule 0);
      r0' ← try (mark_slots avail selected_indices r0);
      let rows := match first_true hits with
                  | Some j => <[j := r0']> all
                  | None => all
                  end in
      written_to schedule_file (write_table (dict_keys r0') rows) ;;
      old ← open_append appointments_file;
      written_to appointments_file
             (append_appointments patient_username mhwp_username date avail
                selected_indices old) ;;
      leave BookedSuccessfully in
    match body w with
    | (w1, inl o) => (w1, o)
    | (w1, inr o) => (w1, o)
    end.

End Builtins.

(** ** [load_mhwp_schedule] *)

Definition appointments_csv : pystr := lit "data/appointments.csv".
Definition schedule_csv : pystr := lit "data/mhwp_schedule.csv".
Definition assignments_csv : pystr := lit "data/assignments.csv".

(** A value that can be a member of a set. *)
Definition hashable (v : pyval) : bool :=
  match v with
  | VList _ => false
  | _ => true
  end.

(** The tuple [(row["Date"], row["time_slot"])] as a set member. *)
Definition date_slot (r : row) : res (pyval * pyval) :=
  d ← field "Date" r;
  t ← field "time_slot" r;
  if hashable d && hashable t then Ok (d, t) else Raise TypeError.

(** The set comprehension over the appointments; the set is used for
    membership only and kept as a list. *)
Fixpoint booked_slots_of (mhwp_username : pystr) (rows : list row)
  : res (list (pyval * pyval)) :=
  match rows with
  | [] => Ok []
  | r :: rows' =>
      m ← field "mhwp_username" r;
      if eq_str m mhwp_username
      then ds ← date_slot r;
           rest ← booked_slots_of mhwp_username rows';
           Ok (ds :: rest)
      else booked_slots_of mhwp_username rows'
  end.

Definition load_mhwp_schedule (mhwp_username schedule_file : pystr)
    (w : world) : res (list row) :=
  match files w !! schedule_file with
  | None => Ok []
  | Some sched =>
      booked_slots ←
        match files w !! appointments_csv with
        | None => Ok []
        | Some appts => booked_slots_of mhwp_username (dict_reader appts)
        end;
      rfilter (fun r => ds ← date_slot r;
                        Ok (bool_decide (ds ∉ booked_slots)))
              (dict_reader sched)
  end.

(** ** The cancellation branch of [handle_patient_menu] *)

Inductive cancel_outcome : Set :=
  | CancelledSuccessfully
  | NoMatchingAppointment
  | NoAppointmentsFound
  | Uncaught (e : exn).

Definition ledger_fields : list pykey :=
  [Some (lit "patient_username"); Some (lit "mhwp_username");
   Some (lit "Date"); Some (lit "time_slot")].

(** The condition of the comprehension of line 338, before its [not]. *)
Definition is_cancelled (username date time_slot : pystr) (appt : row)
  : res bool :=
  p ← field "patient_username" appt;
  if eq_str p username then
    d ← field "Date" appt;
    if eq_str d date then
      t ← field "time_slot" appt; Ok (eq_str t time_slot)
    else Ok false
  else Ok false.

(** Lines 327-350, the branch [appointment_choice == "2"]; [username] is
    [user.username].  Nothing catches an exception here. *)
Definition cancel_appointment (repr_list : list pystr → pystr)
    (username : pystr) (w : world) : world * cancel_outcome :=
  match input w with
  | (w1, Raise e) => (w1, Uncaught e)
  | (w1, Ok line1) =>
    let date := strip line1 in
    match input w1 with
    | (w2, Raise e) => (w2, Uncaught e)
    | (w2, Ok line2) =>
      let time_slot := strip line2 in
      match files w2 !! appointments_csv with
      | None => (w2, NoAppointmentsFound)
      | Some f =>
        let appointments := dict_reader f in
        match rfilter (fun appt => b ← is_cancelled username date time_slot appt;
                                   Ok (negb b)) appointments with
        | Raise e => (w2, Uncaught e)
        | Ok updated_appointments =>
          if (length updated_appointments <? length appointments)%nat then
            match write_table repr_list ledger_fields updated_appointments with
            | (written, Some e) => (set_file appointments_csv written w2, Uncaught e)
            | (written, None) =>
                (set_file appointments_csv written w2, CancelledSuccessfully)
            end
          else (w2, NoMatchingAppointment)
        end
      end
    end
  end.

(** ** [save_appointments] *)

(** The loop of lines 177-183 after the records [written]: a slot without
    [Date] or [time_slot] raises, the records before it stay written. *)
Fixpoint save_rows (repr_list : list pystr → pystr)
    (patient_username mhwp_username : pystr) (booked_slots : list row)
    (written : csvfile) : csvfile * option exn :=
  match booked_slots with
  | [] => (written, None)
  | slot :: rest =>
      match (d ← field "Date" slot; t ← field "time_slot" slot; Ok (d, t)) with
      | Ok (d, t) =>
          save_rows repr_list patient_username mhwp_username rest
            (written ++ [[patient_username; mhwp_username;
                          cell_text repr_list d; cell_text repr_list t]])
      | Raise e => (written, Some e)
      end
  end.

(** Lines 166-183.  The file is opened for appending, which creates it;
    [file.tell() == 0] holds when it has no content, and then the header
    goes first.  The exception, if any, is not caught. *)
Definition save_appointments (repr_list : list pystr → pystr)
    (booked_slots : list row) (patient_username mhwp_username
    appointments_file : pystr) (w : world) : world * option exn :=
  let old := default [] (files w !! appointments_file) in
  let start := if bool_decide (old = [])
               then [key_text <$> ledger_fields] else old in
  let r := save_rows repr_list patient_username mhwp_username booked_slots
             start in
  (set_file appointments_file r.1 w, r.2).

(** ** The other appointment branches of [handle_patient_menu] *)

(** Lines 352-364, the branch [appointment_choice == "3"]: the rows that
    are tabulated, none when "No appointments found." is printed. *)
Definition view_appointments (username : pystr) (w : world)
  : res (list row) :=
  match files w !! appointments_csv with
  | None => Ok []
  | Some f =>
      rfilter (fun r => p ← field "patient_username" r;
                        Ok (eq_str p username)) (dict_reader f)
  end.

Inductive menu_outcome : Type :=
  | Booking (o : outcome)
  | NoMhwpAssigned
  | Cancellation (o : cancel_outcome)
  | Viewed (rows : list row)
  | InvalidChoice
  | Crashed (e : exn).

(** Lines 308-366, the branch [patient_choice == '6'] of one turn of the
    menu loop; [username] is [user.username].  The value returned by
    [get_assigned_mhwp] is falsy when it is [None] or the empty string (a
    list is never the value of a named field). *)
Definition appointment_menu (isdigit : pystr → bool)
    (int : pystr → option Z) (repr_list : list pystr → pystr)
    (username : pystr) (w : world) : world * menu_outcome :=
  match input w with
  | (w1, Raise e) => (w1, Crashed e)
  | (w1, Ok line) =>
    let appointment_choice := strip line in
    if bool_decide (appointment_choice = lit "1") then
      match get_assigned_mhwp username assignments_csv w1 with
      | (w2, VStr (c :: mhwp)) =>
          let r := patient_select_slots isdigit int repr_list username
                     (c :: mhwp) schedule_csv appointments_csv w2 in
          (r.1, Booking r.2)
      | (w2, _) => (w2, NoMhwpAssigned)
      end
    else if bool_decide (appointment_choice = lit "2") then
      let r := cancel_appointment repr_list username w1 in
      (r.1, Cancellation r.2)
    else if bool_decide (appointment_choice = lit "3") then
      match view_appointments username w1 with
      | Ok rows => (w1, Viewed rows)
      | Raise e => (w1, Crashed e)
      end
    else (w1, InvalidChoice)
  end.

(** ** The built-ins on ASCII text

    Instances of the three built-ins, exact on ASCII digits and on lists
    of strings of plain ASCII letters, digits and punctuation other than
    quotes and backslashes. *)

Definition ascii_isdigit (s : pystr) : bool :=
  negb (bool_decide (s = []))
  && forallb (fun c => (48 <=? c) && (c <=? 57))%N s.

Definition ascii_int (s : pystr) : option Z :=
  if ascii_isdigit s
  then Some (foldl (fun acc c => 10 * acc + Z.of_N (c - 48)) 0 s)
  else None.

Fixpoint join (sep : pystr) (l : list pystr) : pystr :=
  match l with
  | [] => []
  | [s] => s
  | s :: l' => s ++ sep ++ join sep l'
  end.

Definition ascii_repr_list (l : list pystr) : pystr :=
  lit "[" ++ join (lit ", ") ((fun s => lit "'" ++ s ++ lit "'") <$> l)
  ++ lit "]".

(** ** Notions used in the statements *)

(** [row["patient_username"] == patient_username], false without the
    column. *)
Definition assigned_to (patient_username : pystr) (r : row) : bool :=
  match dict_get (Some (lit "patient_username")) r with
  | Some v => eq_str v patient_username
  | None => false
  end.

(** The cell of [r] under [k] is a string that, once stripped, is the
    OPEN marker. *)
Definition open_cell (r : row) (k : pykey) : Prop :=
  ∃ s, dict_get k r = Some (VStr s) ∧ strip s = OPEN.

(** A row whose only slot cell is the OPEN marker after a space. *)
Definition padded_row : row :=
  [(Some (lit "mhwp_username"), VStr (lit "drsmith"));
   (Some (lit "Date"), VStr (lit "2024/03/01"));
   (Some (lit "Day"), VStr (lit "Friday"));
   (Some (lit "09:00"), VStr (32%N :: OPEN))].

(** A schedule in the layout [load_mhwp_schedule] reads, one row per date
    and time slot, and a ledger with one appointment of [drsmith]. *)
Definition slots_world : world :=
  World {[ schedule_csv :=
             [[lit "mhwp_username"; lit "Date"; lit "time_slot"];
              [lit "drsmith"; lit "2024/03/01"; lit "09:00"];
              [lit "drsmith"; lit "2024/03/01"; lit "10:00"]];
           appointments_csv :=
             [[lit "patient_username"; lit "mhwp_username"; lit "Date";
               lit "time_slot"];
              [lit "alice"; lit "drsmith"; lit "2024/03/01"; lit "09:00"]] ]}
        [].

(** An appointment as the ledger records it, its record in the file and
    its row as read back. *)
Record appointment : Type := Appointment {
  a_patient : pystr;
  a_mhwp : pystr;
  a_date : pystr;
  a_slot : pystr
}.

Definition appointment_record (a : appointment) : list pystr :=
  [a_patient a; a_mhwp a; a_date a; a_slot a].

Definition appointment_row (a : appointment) : row :=
  [(Some (lit "patient_username"), VStr (a_patient a));
   (Some (lit "mhwp_username"), VStr (a_mhwp a));
   (Some (lit "Date"), VStr (a_date a));
   (Some (lit "time_slot"), VStr (a_slot a))].

(** The appointments file that holds the appointments [l] under the header
    the cancellation writes. *)
Definition ledger_file (l : list appointment) : csvfile :=
  (key_text <$> ledger_fields) :: (appointment_record <$> l).

(** The appointment is the one of [username] on [date] at [time_slot]. *)
Definition cancels (username date time_slot : pystr) (a : appointment)
  : bool :=
  bool_decide (a_patient a = username)
  && bool_decide (a_date a = date)
  && bool_decide (a_slot a = time_slot).

Definition alice_0900 : appointment :=
  Appointment (lit "alice") (lit "drsmith") (lit "2024/03/01") (lit "09:00").
Definition bob_1000 : appointment :=
  Appointment (lit "bob") (lit "drsmith") (lit "2024/03/01") (lit "10:00").

(** A ledger that holds the appointment of [alice] twice, next to a
    schedule on which that slot is booked. *)
Definition twice_booked_world : world :=
  World {[ appointments_csv := ledger_file [alice_0900; bob_1000; alice_0900];
           schedule_csv :=
             [[lit "mhwp_username"; lit "Date"; lit "Day"; lit "09:00";
               lit "10:00"];
              [lit "drsmith"; lit "2024/03/01"; lit "Friday"; BOOKED;
               BOOKED]] ]}
        [lit "2024/03/01"; lit "09:00"].

(** A table whose records all have one field per field name, the names
    being distinct. *)
Definition rectangular (f : csvfile) : Prop :=
  match f with
  | [] => False
  | fieldnames :: records =>
      fieldnames ≠ [] ∧ NoDup fieldnames
      ∧ Forall (fun r => length r = length fieldnames) records
  end.

(** [row["mhwp_username"] == mhwp_username], false without the column. *)
Definition row_of_mhwp (mhwp_username : pystr) (r : row) : bool :=
  match dict_get (Some (lit "mhwp_username")) r with
  | Some v => eq_str v mhwp_username
  | None => false
  end.

(** The schedule header with a day column before the slot columns. *)
Definition day_header : list pystr :=
  [lit "mhwp_username"; lit "Date"; lit "Day"; lit "09:00"; lit "10:00";
   lit "11:00"].

(** A schedule with a row of [drsmith] and a row of [drjones], and a
    patient who types the date and then letters. *)
Definition two_mhwp_world : world :=
  World {[ schedule_csv :=
             [day_header;
              [lit "drsmith"; lit "2024/03/01"; lit "Friday"; OPEN; OPEN;
               BOOKED];
              [lit "drjones"; lit "2024/03/01"; lit "Friday"; OPEN; BOOKED;
               OPEN]] ]}
        [lit "2024/03/01"; lit "abc,xy"].

(** A schedule row of [drsmith] with the given slot cells under
    [day_header], and the lines the patient types. *)
Definition drsmith_world (cells : list pystr) (lines : list pystr) : world :=
  World {[ schedule_csv :=
             [day_header;
              [lit "drsmith"; lit "2024/03/01"; lit "Friday"] ++ cells] ]}
        lines.

(** The first slot is booked, the patient asks for index 1. *)
Definition shifted_world : world :=
  drsmith_world [BOOKED; OPEN; OPEN] [lit "2024/03/01"; lit "1"].

(** Only the middle slot is open, the patient asks for it. *)
Definition middle_open_world : world :=
  drsmith_world [BOOKED; OPEN; BOOKED] [lit "2024/03/01"; lit "1"].

(** The schedule of the scenario: [drsmith], 2024/03/01 and the slots
    09:00, 10:00 and 11:00 after a third leading column of any name. *)
Definition scenario_header (third : pystr) : list pystr :=
  [lit "mhwp_username"; lit "Date"; third; lit "09:00"; lit "10:00";
   lit "11:00"].

Definition scenario_record (third_cell c0900 c1000 c1100 : pystr)
  : list pystr :=
  [lit "drsmith"; lit "2024/03/01"; third_cell; c0900; c1000; c1100].

(** A schedule whose slot columns come right after [mhwp_username] and
    [Date], with the row of [drsmith] for 2024/03/01. *)
Definition two_leading_header : list pystr :=
  [lit "mhwp_username"; lit "Date"; lit "09:00"; lit "10:00"; lit "11:00"].

Definition two_leading_file (cells : list pystr) : list (list pystr) :=
  [two_leading_header; [lit "drsmith"; lit "2024/03/01"] ++ cells].

Definition two_leading_world (cells : list pystr) (lines : list pystr)
  : world :=
  World {[ schedule_csv := two_leading_file cells ]} lines.

(** A line the selection loop does not accept: its indices are not all
    open or are more than two, or [int] raised. *)
Definition rejected (isdigit : pystr → bool) (int : pystr → option Z)
    (avail : list (Z * pykey)) (line : pystr) : Prop :=
  match parse_indices isdigit int line with
  | Ok sel => valid_selection avail sel = false
  | Raise _ => True
  end.

(** The row [slot] is a slot of date [ds.1] at time [ds.2]. *)
Definition slot_of (slot : row) (ds : pystr * pystr) : Prop :=
  dict_get (Some (lit "Date")) slot = Some (VStr ds.1)
  ∧ dict_get (Some (lit "time_slot")) slot = Some (VStr ds.2).

(** The appointments [save_appointments] records for the slots [dss]. *)
Definition appointments_for (patient_username mhwp_username : pystr)
    (dss : list (pystr * pystr)) : list appointment :=
  (fun ds => Appointment patient_username mhwp_username ds.1 ds.2) <$> dss.

(** A ledger with the appointment of [bob] and the slot [alice] books. *)
Definition bob_world : world :=
  World {[ appointments_csv := ledger_file [bob_1000] ]}
        [lit "2024/03/01"; lit "09:00"].

Definition slot_0900 : row :=
  [(Some (lit "mhwp_username"), VStr (lit "drsmith"));
   (Some (lit "Date"), VStr (lit "2024/03/01"));
   (Some (lit "time_slot"), VStr (lit "09:00"))].

(** The appointments file as [patient_select_slots] leaves it after the
    two slots of the scenario were booked with no file before: two
    records and no header.  The patient then asks to cancel the first. *)
Definition booked_ledger_world : world :=
  World {[ appointments_csv :=
             [[lit "alice"; lit "drsmith"; lit "2024/03/01"; lit "09:00"];
              [lit "alice"; lit "drsmith"; lit "2024/03/01"; lit "10:00"]] ]}
        [lit "2024/03/01"; lit "09:00"].

(** A patient without assignment who picks the booking option. *)
Definition unassigned_world : world :=
  World {[ assignments_csv :=
             [[lit "patient_username"; lit "mhwp_username"];
              [lit "bob"; lit "drsmith"]];
           schedule_csv :=
             [day_header;
              [lit "drsmith"; lit "2024/03/01"; lit "Friday"; OPEN; OPEN;
               BOOKED]] ]}
        [lit "1"; lit "2024/03/01"; lit "0"].

(** * Properties *)

(** ** Results and comprehensions *)

Lemma bind_Ok {A B} (m : res A) (k : A → res B) (b : B) :
  (m ≫= k) = Ok b ↔ ∃ a, m = Ok a ∧ k a = Ok b.
Proof.
  destruct m as [a|e]; simpl.
  - split; [intros H; by exists a | by intros (a' & [= <-] & H)].
  - split; [done | intros (a' & ? & _); done].
Qed.

Lemma rfilter_Ok_elem {A} (p : A → res bool) (l l' : list A) (x : A) :
  rfilter p l = Ok l' → x ∈ l' → x ∈ l ∧ p x = Ok true.
Proof.
  revert l'. induction l as [|a l IH]; intros l' H Hx; simpl in H.
  - injection H as <-. by apply elem_of_nil in Hx.
  - apply bind_Ok in H as (b & Hb & H).
    apply bind_Ok in H as (r & Hr & [= <-]).
    destruct b.
    + apply elem_of_cons in Hx as [->|Hx].
      * split; [left | done].
      * destruct (IH r Hr Hx) as [? ?]. split; [by right | done].
    + destruct (IH r Hr Hx) as [? ?]. split; [by right | done].
Qed.

Lemma rmap_length {A B} (f : A → res B) (l : list A) (l' : list B) :
  rmap f l = Ok l' → length l' = length l.
Proof.
  revert l'. induction l as [|a l IH]; intros l' H; simpl in H.
  - by injection H as <-.
  - apply bind_Ok in H as (b & _ & H).
    apply bind_Ok in H as (bs & Hbs & [= <-]).
    simpl. f_equal. by apply IH.
Qed.

(** ** Dicts and the rows of a reader *)

Lemma dict_get_set (k k' : pykey) (v : pyval) (d : row) :
  dict_get k' (dict_set k v d)
  = if decide (k = k') then Some v else dict_get k' d.
Proof.
  induction d as [|[k0 v0] d IH]; simpl.
  - repeat case_decide; congruence.
  - destruct (decide (k0 = k)) as [->|Hne]; simpl.
    + repeat case_decide; congruence.
    + rewrite IH. repeat case_decide; congruence.
Qed.

Lemma dict_keys_set (k : pykey) (v : pyval) (d : row) :
  dict_keys (dict_set k v d)
  = if bool_decide (k ∈ dict_keys d) then dict_keys d else dict_keys d ++ [k].
Proof.
  unfold dict_keys. induction d as [|[k0 v0] d IH].
  - rewrite bool_decide_eq_false_2; [done | apply not_elem_of_nil].
  - cbn [dict_set]. destruct (decide (k0 = k)) as [->|Hne].
    + rewrite bool_decide_eq_true_2; [done | left].
    + rewrite fmap_cons, IH. case_bool_decide as Hk.
      * rewrite bool_decide_eq_true_2; [done | by right].
      * rewrite bool_decide_eq_false_2; [done|].
        intros [?|?]%elem_of_cons; simpl in *; [by subst | done].
Qed.

(** The named fields of a row are those of the header, and none of them
    holds a list. *)
Lemma mk_row_named (k : pystr) (fieldnames fields : list pystr) :
  if bool_decide (k ∈ fieldnames)
  then ∃ v, dict_get (Some k) (mk_row fieldnames fields) = Some v
            ∧ hashable v = true
  else dict_get (Some k) (mk_row fieldnames fields) = None.
Proof.
  unfold mk_row.
  set (P := fun (l : list pystr) (d : row) =>
    if bool_decide (k ∈ l)
    then ∃ v, dict_get (Some k) d = Some v ∧ hashable v = true
    else dict_get (Some k) d = None).
  assert (Hzip : ∀ hs fs l d, P l d →
    P (l ++ take (length fs) hs)
      (foldl (fun d kv => dict_set (Some kv.1) (VStr kv.2) d) d (zip hs fs))).
  { induction hs as [|h hs IH]; intros [|f0 fs] l d HP; simpl;
      rewrite ?take_0, ?app_nil_r; try done.
    replace (l ++ h :: take (length fs) hs)
      with ((l ++ [h]) ++ take (length fs) hs) by by rewrite <-app_assoc.
    apply IH. unfold P in *. rewrite dict_get_set.
    destruct (decide (h = k)) as [->|Hne].
    - rewrite bool_decide_eq_true_2 by (apply elem_of_app; right; left).
      rewrite decide_True by done. by eexists.
    - rewrite decide_False by congruence. case_bool_decide as Hk.
      + rewrite bool_decide_eq_true_2; [done|].
        apply elem_of_app; by left.
      + rewrite bool_decide_eq_false_2; [done|].
        intros [?|?%list_elem_of_singleton]%elem_of_app; congruence. }
  assert (Hrest : ∀ hs l d, P l d →
    P (l ++ hs) (foldl (fun d h => dict_set (Some h) VNone d) d hs)).
  { induction hs as [|h hs IH]; intros l d HP; simpl;
      rewrite ?app_nil_r; try done.
    replace (l ++ h :: hs) with ((l ++ [h]) ++ hs) by by rewrite <-app_assoc.
    apply IH. unfold P in *. rewrite dict_get_set.
    destruct (decide (h = k)) as [->|Hne].
    - rewrite bool_decide_eq_true_2 by (apply elem_of_app; right; left).
      rewrite decide_True by done. by eexists.
    - rewrite decide_False by congruence. case_bool_decide as Hk.
      + rewrite bool_decide_eq_true_2; [done|].
        apply elem_of_app; by left.
      + rewrite bool_decide_eq_false_2; [done|].
        intros [?|?%list_elem_of_singleton]%elem_of_app; congruence. }
  assert (H0 : P [] []).
  { unfold P. rewrite bool_decide_eq_false_2; [done | apply not_elem_of_nil]. }
  specialize (Hzip fieldnames fields [] [] H0). simpl in Hzip.
  destruct (length fieldnames <? length fields)%nat eqn:Hlt.
  - apply Nat.ltb_lt in Hlt.
    rewrite take_ge in Hzip by lia.
    unfold P in Hzip. rewrite dict_get_set.
    by rewrite decide_False by done.
  - apply Nat.ltb_ge in Hlt.
    specialize (Hrest (drop (length fields) fieldnames) _ _ Hzip).
    by rewrite take_drop in Hrest.
Qed.

Lemma dict_reader_field (k : pystr) (f : csvfile) :
  Forall (fun r => ∃ v, dict_get (Some k) r = Some v ∧ hashable v = true)
         (dict_reader f)
  ∨ Forall (fun r => dict_get (Some k) r = None) (dict_reader f).
Proof.
  destruct f as [|fieldnames records]; simpl; [by left|].
  destruct (decide (k ∈ fieldnames)) as [Hk|Hk]; [left | right];
    apply Forall_fmap, Forall_forall; intros fields _; simpl;
    pose proof (mk_row_named k fieldnames fields) as H.
  - by rewrite bool_decide_eq_true_2 in H.
  - by rewrite bool_decide_eq_false_2 in H.
Qed.

(** ** The two definitions of [patient_select_slots] *)

Lemma first_true_select_rows {A} (hits : list bool) (l : list A) :
  length hits = length l →
  match first_true hits with
  | Some j => ∃ a, l !! j = Some a ∧ head (select_rows hits l) = Some a
  | None => select_rows hits l = []
  end.
Proof.
  revert l. induction hits as [|[] hits IH]; intros [|a l] Hlen;
    simpl in *; try done.
  - by exists a.
  - injection Hlen as Hlen. specialize (IH l Hlen).
    destruct (first_true hits) as [j|]; simpl; [|done].
    destruct IH as (b & ? & ?). by exists b.
Qed.

Section Properties.

Variable isdigit : pystr → bool.
Variable int : pystr → option Z.
Variable repr_list : list pystr → pystr.

(** C9. The definition of [patient_select_slots] at lines 78-162 and the
    one at lines 185-269 that replaces it leave the same files and the
    same standard input and end with the same outcome, from every world
    and for all arguments. *)
Theorem patient_select_slots_definitions_agree
    (patient_username mhwp_username schedule_file appointments_file : pystr)
    (w : world) :
  patient_select_slots_first isdigit int repr_list patient_username
    mhwp_username schedule_file appointments_file w
  = patient_select_slots isdigit int repr_list patient_username
      mhwp_username schedule_file appointments_file w.
Proof.
  unfold patient_select_slots_first, patient_select_slots, file_exists.
  destruct (files w !! schedule_file) as [f|] eqn:Hf.
  2: { rewrite bool_decide_eq_false_2; [done | by intros [? ?]]. }
  rewrite bool_decide_eq_true_2 by eauto. simpl.
  unfold choose_date, mbind, t_mbind, t_bind, read_file. rewrite Hf.
  unfold try at 1.
  destruct (rfilter _ (dict_reader f)) as [all|e] eqn:Hall; [|done].
  destruct all as [|r all']; [done|].
  rewrite bool_decide_eq_false_2 by done.
  unfold try_input. destruct (input w) as [w1 [line|e]] eqn:Hin; [|done].
  unfold try at 1.
  destruct (rmap _ (r :: all')) as [hits|e] eqn:Hhits; [|done].
  pose proof (first_true_select_rows hits (r :: all')
                (rmap_length _ _ _ Hhits)) as Hft.
  destruct (first_true hits) as [j|].
  - destruct Hft as (a & Hj & Hhead).
    destruct (select_rows hits (r :: all')) as [|d ds] eqn:Hsel; [done|].
    injection Hhead as ->.
    rewrite bool_decide_eq_false_2 by done.
    unfold try at 1.
    destruct (extract_available_slots (a :: ds)) as [avail|e]; [|done].
    destruct avail as [|s0 avail]; [done|].
    rewrite bool_decide_eq_false_2 by done.
    unfold ask_indices. simpl available_slots.
    destruct (selection_loop _ _ _ (stdin w1)) as [rest [sel|e]]; [|done].
    unfold book. simpl. rewrite Hj.
    unfold try.
    destruct (mark_slots (s0 :: avail) sel a) as [a'|e]; [|done].
    unfold written_to, open_append, leave. simpl.
    destruct (write_table repr_list (dict_keys a') _) as [written [e|]];
      [done|]. simpl.
    by destruct (append_appointments _ _ _ _ _ _) as [ledger [e|]].
  - rewrite Hft. by rewrite bool_decide_eq_true_2.
Qed.

End Properties.

(** ** [get_assigned_mhwp] *)

Lemma find_assignment_first (patient_username : pystr) (rows : list row) :
  Forall (fun r => is_Some (dict_get (Some (lit "patient_username")) r)) rows →
  match find_assignment patient_username rows with
  | Ok v => v
  | Raise _ => VNone
  end
  = match list_find (fun r => assigned_to patient_username r) rows with
    | Some (_, r) => default VNone (dict_get (Some (lit "mhwp_username")) r)
    | None => VNone
    end.
Proof.
  induction 1 as [|r rows [v Hv] _ IH]; [done|].
  cbn [find_assignment list_find]. unfold field, getitem. rewrite Hv.
  cbn [mbind res_bind].
  assert (assigned_to patient_username r = eq_str v patient_username) as ->
    by (unfold assigned_to; by rewrite Hv).
  destruct (eq_str v patient_username).
  - rewrite decide_True by done.
    by destruct (dict_get (Some (lit "mhwp_username")) r).
  - rewrite decide_False by (by intros ?). rewrite IH.
    by destruct (list_find _ rows) as [[? ?]|].
Qed.

Lemma find_assignment_no_column (patient_username : pystr) (rows : list row) :
  Forall (fun r => dict_get (Some (lit "patient_username")) r = None) rows →
  match find_assignment patient_username rows with
  | Ok v => v
  | Raise _ => VNone
  end = VNone
  ∧ list_find (fun r => assigned_to patient_username r) rows = None.
Proof.
  intros Hrows. split.
  - destruct Hrows as [|r rows Hr _]; [done|].
    cbn [find_assignment]. unfold field, getitem. by rewrite Hr.
  - apply list_find_None. eapply Forall_impl; [exact Hrows|].
    intros r Hr. unfold assigned_to. rewrite Hr. by intros ?.
Qed.

(** C8. [get_assigned_mhwp] leaves the world as it found it and returns
    the [mhwp_username] of the first row, in file order, whose
    [patient_username] equals the argument ([None] if that row has no such
    field); it returns [None] when no row matches and when the assignments
    file does not exist. *)
Theorem get_assigned_mhwp_first_match
    (patient_username assignments_file : pystr) (w : world) :
  (get_assigned_mhwp patient_username assignments_file w).1 = w
  ∧ (get_assigned_mhwp patient_username assignments_file w).2
    = match files w !! assignments_file with
      | None => VNone
      | Some f =>
          match list_find (fun r => assigned_to patient_username r)
                          (dict_reader f) with
          | Some (_, r) =>
              default VNone (dict_get (Some (lit "mhwp_username")) r)
          | None => VNone
          end
      end.
Proof.
  unfold get_assigned_mhwp.
  destruct (files w !! assignments_file) as [f|]; [|done].
  split; [by destruct (find_assignment _ _)|].
  destruct (dict_reader_field (lit "patient_username") f) as [Hall|Hnone].
  - rewrite <-find_assignment_first.
    + by destruct (find_assignment _ _).
    + eapply Forall_impl; [exact Hall|]. intros r (v & -> & _). eauto.
  - destruct (find_assignment_no_column patient_username _ Hnone) as [H1 H2].
    rewrite H2, <-H1. by destruct (find_assignment _ _).
Qed.

(** ** [extract_available_slots] *)

Lemma scan_slots_exact (r : row) (cols : list pykey) (idx : Z) :
  (∀ k, k ∈ cols → ∃ s, dict_get k r = Some (VStr s)) →
  ∃ l, scan_slots r idx cols = Ok l
       ∧ (∀ i k, (i, k) ∈ l ↔
            idx ≤ i ∧ cols !! Z.to_nat (i - idx) = Some k ∧ open_cell r k)
       ∧ StronglySorted Z.lt l.*1
       ∧ Forall (fun i => idx ≤ i) l.*1.
Proof.
  revert idx. induction cols as [|k0 cols IH]; intros idx Hstr.
  - exists []. split; [done|]. split; [|split; constructor].
    intros i k. split; [by intros ?%elem_of_nil | by intros (_ & ? & _)].
  - destruct (Hstr k0) as [s0 Hs0]; [left|].
    destruct (IH (idx + 1)) as (found & Hscan & Hmem & Hsort & Hge).
    { intros k Hk. apply Hstr. by right. }
    cbn [scan_slots]. unfold getitem. rewrite Hs0. cbn.
    rewrite Hscan. cbn.
    assert (Htail : ∀ i k, (i, k) ∈ found ↔
      idx < i ∧ (k0 :: cols) !! Z.to_nat (i - idx) = Some k ∧ open_cell r k).
    { intros i k. rewrite Hmem. split.
      - intros (Hi & Hk & Ho). split; [lia|]. split; [|done].
        replace (Z.to_nat (i - idx)) with (S (Z.to_nat (i - (idx + 1))))
          by lia. done.
      - intros (Hi & Hk & Ho). split; [lia|]. split; [|done].
        replace (Z.to_nat (i - idx)) with (S (Z.to_nat (i - (idx + 1))))
          in Hk by lia. done. }
    assert (Hge' : Forall (fun i => idx ≤ i) found.*1).
    { eapply Forall_impl; [exact Hge|]. simpl. lia. }
    case_bool_decide as Hopen.
    + exists ((idx, k0) :: found). split; [done|]. split; [|split].
      * intros i k. split.
        -- intros [[= -> ->]|Hin]%elem_of_cons.
           ++ split; [lia|]. rewrite Z.sub_diag. split; [done|]. by exists s0.
           ++ apply Htail in Hin as (? & ? & ?). split; [lia | done].
        -- intros (Hi & Hk & Ho).
           destruct (decide (i = idx)) as [->|Hne].
           ++ rewrite Z.sub_diag in Hk. injection Hk as ->. left.
           ++ right. apply Htail. split; [lia | done].
      * cbn. constructor; [done|].
        eapply Forall_impl; [exact Hge|]. simpl. lia.
      * cbn. constructor; [lia | done].
    + exists found. split; [done|]. split; [|split; done].
      intros i k. split.
      * intros Hin. apply Htail in Hin as (? & ? & ?). split; [lia | done].
      * intros (Hi & Hk & Ho). apply Htail.
        destruct (decide (i = idx)) as [->|Hne]; [|split; [lia | done]].
        rewrite Z.sub_diag in Hk. injection Hk as ->.
        destruct Ho as (s & Hs & Hstrip). congruence.
Qed.

(** C2, as the code has it.  The slot columns are the columns after the
    first three of the row.  When their cells are strings,
    [extract_available_slots] returns, in increasing index order, exactly
    the pairs of an index [i] and the name of the column at position
    [3 + i] of the row whose cell is the OPEN marker once surrounding white
    space is stripped: no such column is left out, and neither a column
    among the first three nor a column with another cell is returned. *)
Theorem extract_available_slots_exact (r : row) (others : list row) :
  (∀ k, k ∈ drop 3 (dict_keys r) → ∃ s, dict_get k r = Some (VStr s)) →
  ∃ l, extract_available_slots (r :: others) = Ok l
       ∧ (∀ i k, (i, k) ∈ l ↔
            0 ≤ i ∧ dict_keys r !! (3 + Z.to_nat i)%nat = Some k
            ∧ open_cell r k)
       ∧ StronglySorted Z.lt l.*1.
Proof.
  intros Hstr.
  destruct (scan_slots_exact r (drop 3 (dict_keys r)) 0 Hstr)
    as (l & Hl & Hmem & Hsort & _).
  exists l. split; [done|]. split; [|done].
  intros i k. by rewrite Hmem, Z.sub_0_r, lookup_drop.
Qed.

(** C2 as stated fails on a schedule whose slot columns come right after
    [mhwp_username] and [Date]: the cell of 09:00 is the OPEN marker and
    its column is left out, and 10:00, the second slot column, is returned
    with index 0. *)
Lemma extract_available_slots_skips_third_column :
  let rows := dict_reader (two_leading_file [OPEN; OPEN; BOOKED]) in
  rows = [[(Some (lit "mhwp_username"), VStr (lit "drsmith"));
           (Some (lit "Date"), VStr (lit "2024/03/01"));
           (Some (lit "09:00"), VStr OPEN);
           (Some (lit "10:00"), VStr OPEN);
           (Some (lit "11:00"), VStr BOOKED)]]
  ∧ extract_available_slots rows = Ok [(0, Some (lit "10:00"))].
Proof. by vm_compute. Qed.

(** The comparison of line 68 is made after [strip]: the pair of a padded
    cell, which is not equal to the OPEN marker, is returned. *)
Lemma extract_available_slots_padded_cell :
  extract_available_slots [padded_row] = Ok [(0, Some (lit "09:00"))]
  ∧ dict_get (Some (lit "09:00")) padded_row = Some (VStr (32%N :: OPEN))
  ∧ 32%N :: OPEN ≠ OPEN.
Proof. by vm_compute. Qed.

Lemma extract_available_slots_exact_witness :
  ∃ l, extract_available_slots [padded_row] = Ok l
       ∧ (∀ i k, (i, k) ∈ l ↔
            0 ≤ i ∧ dict_keys padded_row !! (3 + Z.to_nat i)%nat = Some k
            ∧ open_cell padded_row k)
       ∧ StronglySorted Z.lt l.*1.
Proof.
  apply (extract_available_slots_exact padded_row []).
  intros k Hk. vm_compute in Hk.
  apply list_elem_of_singleton in Hk as ->. by eexists.
Defined.

(** ** [load_mhwp_schedule] *)

Lemma date_slot_Ok (r : row) (d t : pyval) :
  date_slot r = Ok (d, t) →
  dict_get (Some (lit "Date")) r = Some d
  ∧ dict_get (Some (lit "time_slot")) r = Some t.
Proof.
  unfold date_slot, field, getitem.
  destruct (dict_get (Some (lit "Date")) r) as [d'|]; [|done].
  destruct (dict_get (Some (lit "time_slot")) r) as [t'|]; [|done].
  cbn. destruct (hashable d' && hashable t'); [|done]. by intros [= -> ->].
Qed.

Lemma booked_slots_of_elem (mhwp_username : pystr) (rows : list row)
    (booked : list (pyval * pyval)) (a : row) (v : pyval) :
  booked_slots_of mhwp_username rows = Ok booked →
  a ∈ rows →
  dict_get (Some (lit "mhwp_username")) a = Some v →
  eq_str v mhwp_username = true →
  ∃ ds, date_slot a = Ok ds ∧ ds ∈ booked.
Proof.
  revert booked. induction rows as [|r rows IH]; intros booked Hb Ha Hv He.
  - by apply elem_of_nil in Ha.
  - cbn [booked_slots_of] in Hb. apply bind_Ok in Hb as (m & Hm & Hb).
    apply elem_of_cons in Ha as [->|Ha].
    + unfold field, getitem in Hm. rewrite Hv in Hm. injection Hm as <-.
      rewrite He in Hb. apply bind_Ok in Hb as (ds & Hds & Hb).
      apply bind_Ok in Hb as (rest & _ & [= <-]).
      exists ds. split; [done | left].
    + destruct (eq_str m mhwp_username).
      * apply bind_Ok in Hb as (ds & _ & Hb).
        apply bind_Ok in Hb as (rest & Hrest & [= <-]).
        destruct (IH rest Hrest Ha Hv He) as (ds' & ? & ?).
        exists ds'. split; [done | by right].
      * by apply IH.
Qed.

(** C4. No row returned by [load_mhwp_schedule] has the date and the time
    slot of an appointment of that MHWP in the appointments file. *)
Theorem load_mhwp_schedule_excludes_booked
    (mhwp_username schedule_file : pystr) (w : world) (rows : list row)
    (appts : csvfile) (r a : row) (v : pyval) :
  load_mhwp_schedule mhwp_username schedule_file w = Ok rows →
  files w !! appointments_csv = Some appts →
  r ∈ rows →
  a ∈ dict_reader appts →
  dict_get (Some (lit "mhwp_username")) a = Some v →
  eq_str v mhwp_username = true →
  ¬ (dict_get (Some (lit "Date")) r = dict_get (Some (lit "Date")) a
     ∧ dict_get (Some (lit "time_slot")) r
       = dict_get (Some (lit "time_slot")) a).
Proof.
  unfold load_mhwp_schedule. intros Hload Happts Hr Ha Hv He [Hd Ht].
  destruct (files w !! schedule_file) as [sched|].
  2: { injection Hload as <-. by apply elem_of_nil in Hr. }
  rewrite Happts in Hload. apply bind_Ok in Hload as (booked & Hb & Hrows).
  destruct (booked_slots_of_elem _ _ _ _ _ Hb Ha Hv He) as ([d t] & Hds & Hin).
  destruct (rfilter_Ok_elem _ _ _ _ Hrows Hr) as [_ Hkeep].
  apply bind_Ok in Hkeep as ([d' t'] & Hds' & [= Hnot]).
  apply bool_decide_eq_true in Hnot.
  apply date_slot_Ok in Hds as [Hd1 Ht1].
  apply date_slot_Ok in Hds' as [Hd2 Ht2].
  congruence.
Qed.

Lemma load_mhwp_schedule_excludes_booked_witness :
  let r := mk_row [lit "mhwp_username"; lit "Date"; lit "time_slot"]
                  [lit "drsmith"; lit "2024/03/01"; lit "10:00"] in
  let a := mk_row [lit "patient_username"; lit "mhwp_username"; lit "Date";
                   lit "time_slot"]
                  [lit "alice"; lit "drsmith"; lit "2024/03/01"; lit "09:00"] in
  load_mhwp_schedule (lit "drsmith") schedule_csv slots_world = Ok [r]
  ∧ ¬ (dict_get (Some (lit "Date")) r = dict_get (Some (lit "Date")) a
       ∧ dict_get (Some (lit "time_slot")) r
         = dict_get (Some (lit "time_slot")) a).
Proof.
  intros r a. split; [by vm_compute|].
  apply (load_mhwp_schedule_excludes_booked (lit "drsmith") schedule_csv
           slots_world [r]
           [[lit "patient_username"; lit "mhwp_username"; lit "Date";
             lit "time_slot"];
            [lit "alice"; lit "drsmith"; lit "2024/03/01"; lit "09:00"]]
           r a (VStr (lit "drsmith"))).
  - by vm_compute.
  - by vm_compute.
  - left.
  - left.
  - by vm_compute.
  - by vm_compute.
Defined.

(** The function does return on tables that have the columns it reads. *)
Lemma dict_reader_column (k : pystr) (fieldnames : list pystr)
    (records : csvfile) :
  k ∈ fieldnames →
  Forall (fun r => ∃ v, dict_get (Some k) r = Some v ∧ hashable v = true)
         (dict_reader (fieldnames :: records)).
Proof.
  intros Hk. apply Forall_fmap, Forall_forall. intros fields _. simpl.
  pose proof (mk_row_named k fieldnames fields) as H.
  by rewrite bool_decide_eq_true_2 in H.
Qed.

Lemma rfilter_returns {A} (p : A → res bool) (l : list A) :
  Forall (fun a => ∃ b, p a = Ok b) l → ∃ l', rfilter p l = Ok l'.
Proof.
  induction 1 as [|a l [b Hb] _ [l' IH]]; [by eexists|].
  cbn [rfilter]. rewrite Hb. cbn. rewrite IH. cbn. by eexists.
Qed.

Lemma date_slot_returns (r : row) :
  (∃ v, dict_get (Some (lit "Date")) r = Some v ∧ hashable v = true) →
  (∃ v, dict_get (Some (lit "time_slot")) r = Some v ∧ hashable v = true) →
  ∃ ds, date_slot r = Ok ds.
Proof.
  intros (d & Hd & Hhd) (t & Ht & Hht). unfold date_slot, field, getitem.
  rewrite Hd, Ht. cbn. rewrite Hhd, Hht. by eexists.
Qed.

Lemma load_mhwp_schedule_returns (mhwp_username schedule_file : pystr)
    (w : world) :
  (∀ fieldnames records,
      files w !! schedule_file = Some (fieldnames :: records) →
      lit "Date" ∈ fieldnames ∧ lit "time_slot" ∈ fieldnames) →
  (∀ fieldnames records,
      files w !! appointments_csv = Some (fieldnames :: records) →
      lit "mhwp_username" ∈ fieldnames ∧ lit "Date" ∈ fieldnames
      ∧ lit "time_slot" ∈ fieldnames) →
  ∃ rows, load_mhwp_schedule mhwp_username schedule_file w = Ok rows.
Proof.
  intros Hsched Happts. unfold load_mhwp_schedule.
  destruct (files w !! schedule_file) as [sched|]; [|by eexists].
  assert (∃ booked,
    match files w !! appointments_csv with
    | Some appts => booked_slots_of mhwp_username (dict_reader appts)
    | None => Ok []
    end = Ok booked) as [booked ->].
  { destruct (files w !! appointments_csv) as [[|hdr recs]|];
      [by eexists | | by eexists].
    destruct (Happts hdr recs eq_refl) as (Hm & Hd & Ht).
    pose proof (dict_reader_column _ _ recs Hm) as Fm.
    pose proof (dict_reader_column _ _ recs Hd) as Fd.
    pose proof (dict_reader_column _ _ recs Ht) as Ft.
    induction (dict_reader (hdr :: recs)) as [|r rows IH]; [by eexists|].
    apply Forall_cons in Fm as [(m & Hgm & _) Fm].
    apply Forall_cons in Fd as [Hgd Fd].
    apply Forall_cons in Ft as [Hgt Ft].
    destruct (IH Fm Fd Ft) as [rest Hrest].
    destruct (date_slot_returns r Hgd Hgt) as [ds Hds].
    cbn [booked_slots_of]. unfold field, getitem. rewrite Hgm. cbn.
    rewrite Hrest, Hds. cbn. destruct (eq_str m mhwp_username); by eexists. }
  cbn. apply rfilter_returns.
  destruct sched as [|hdr recs]; [constructor|].
  destruct (Hsched hdr recs eq_refl) as (Hd & Ht).
  pose proof (dict_reader_column _ _ recs Hd) as Fd.
  pose proof (dict_reader_column _ _ recs Ht) as Ft.
  induction (dict_reader (hdr :: recs)) as [|r rows IH]; [constructor|].
  apply Forall_cons in Fd as [Hgd Fd]. apply Forall_cons in Ft as [Hgt Ft].
  constructor; [|by apply IH].
  destruct (date_slot_returns r Hgd Hgt) as [ds ->]. cbn. by eexists.
Qed.

(** ** Cancellation *)

Lemma dict_reader_ledger_file (l : list appointment) :
  dict_reader (ledger_file l) = appointment_row <$> l.
Proof.
  unfold dict_reader, ledger_file.
  induction l as [|a l IH]; [done|].
  rewrite fmap_cons, filter_cons_True by done. rewrite !fmap_cons.
  f_equal. exact IH.
Qed.

Lemma is_cancelled_appointment (username date time_slot : pystr)
    (a : appointment) :
  is_cancelled username date time_slot (appointment_row a)
  = Ok (cancels username date time_slot a).
Proof.
  assert (dict_get (Some (lit "patient_username")) (appointment_row a)
          = Some (VStr (a_patient a))) as Hp by (by vm_compute).
  assert (dict_get (Some (lit "Date")) (appointment_row a)
          = Some (VStr (a_date a))) as Hd by (by vm_compute).
  assert (dict_get (Some (lit "time_slot")) (appointment_row a)
          = Some (VStr (a_slot a))) as Ht by (by vm_compute).
  unfold is_cancelled, cancels, field, getitem. rewrite Hp, Hd, Ht.
  cbn [mbind res_bind eq_str].
  by repeat case_bool_decide.
Qed.

Lemma rfilter_not_cancelled (username date time_slot : pystr)
    (l : list appointment) :
  rfilter (fun appt => b ← is_cancelled username date time_slot appt;
                       Ok (negb b)) (appointment_row <$> l)
  = Ok (appointment_row <$>
          filter (fun a => negb (cancels username date time_slot a)) l).
Proof.
  induction l as [|a l IH]; [done|].
  rewrite fmap_cons, filter_cons. cbn [rfilter].
  rewrite is_cancelled_appointment. cbn [mbind res_bind]. rewrite IH.
  cbn [mbind res_bind].
  destruct (cancels username date time_slot a); cbn [negb].
  - by rewrite decide_False by (by intros ?).
  - by rewrite decide_True by done.
Qed.

Lemma writerows_ledger (repr_list : list pystr → pystr)
    (l : list appointment) (written : csvfile) :
  writerows repr_list ledger_fields (appointment_row <$> l) written
  = (written ++ (appointment_record <$> l), None).
Proof.
  revert written. induction l as [|a l IH]; intros written.
  - by rewrite app_nil_r.
  - rewrite fmap_cons. cbn [writerows].
    assert (dict_to_list repr_list ledger_fields (appointment_row a)
            = Ok (appointment_record a)) as -> by done.
    rewrite IH. by rewrite <-app_assoc.
Qed.

Lemma filter_not_cancelled_length (hit : appointment → bool)
    (l : list appointment) :
  (length (filter (fun a => negb (hit a)) l) <? length l)%nat = existsb hit l.
Proof.
  pose proof (length_filter (fun a => negb (hit a)) l) as Hle.
  induction l as [|a l IH]; [done|].
  rewrite filter_cons in *. cbn [existsb].
  pose proof (length_filter (fun a => negb (hit a)) l) as Hle'.
  destruct (hit a); cbn [negb] in *.
  - rewrite decide_False by (by intros ?). cbn [orb length].
    apply Nat.ltb_lt. lia.
  - rewrite decide_True by done. cbn [orb length]. by rewrite <-IH.
Qed.

(** C5, as the code has it.  On a ledger that holds the appointments
    [ledger], cancelling the appointment of [username] for the date and
    the time slot typed in removes every record of that patient, date and
    slot, keeps the other records in their order and reports success when
    there is at least one such record; when there is none the file stays
    as it is and the cancellation reports that nothing matched. *)
Theorem cancel_appointment_removes_matching
    (repr_list : list pystr → pystr) (username : pystr) (w : world)
    (ledger : list appointment) (line1 line2 : pystr) (rest : list pystr) :
  files w !! appointments_csv = Some (ledger_file ledger) →
  stdin w = line1 :: line2 :: rest →
  cancel_appointment repr_list username w
  = if existsb (cancels username (strip line1) (strip line2)) ledger
    then (World (<[appointments_csv :=
                     ledger_file
                       (filter (fun a => negb (cancels username (strip line1)
                                                 (strip line2) a)) ledger)]>
                   (files w)) rest,
          CancelledSuccessfully)
    else (World (files w) rest, NoMatchingAppointment).
Proof.
  intros Hfile Hin. unfold cancel_appointment, input. rewrite Hin.
  cbn [files stdin].
  rewrite Hfile, dict_reader_ledger_file, rfilter_not_cancelled.
  rewrite !length_fmap, filter_not_cancelled_length.
  destruct (existsb _ ledger); [|done].
  unfold write_table. by rewrite writerows_ledger.
Qed.

Lemma cancel_appointment_removes_matching_witness :
  cancel_appointment ascii_repr_list (lit "alice") twice_booked_world
  = if existsb (cancels (lit "alice") (strip (lit "2024/03/01"))
                  (strip (lit "09:00")))
               [alice_0900; bob_1000; alice_0900]
    then (World (<[appointments_csv :=
                     ledger_file
                       (filter (fun a => negb (cancels (lit "alice")
                                                 (strip (lit "2024/03/01"))
                                                 (strip (lit "09:00")) a))
                               [alice_0900; bob_1000; alice_0900])]>
                   (files twice_booked_world)) [],
          CancelledSuccessfully)
    else (World (files twice_booked_world) [], NoMatchingAppointment).
Proof.
  apply (cancel_appointment_removes_matching ascii_repr_list (lit "alice")
           twice_booked_world [alice_0900; bob_1000; alice_0900]
           (lit "2024/03/01") (lit "09:00") []).
  - by vm_compute.
  - reflexivity.
Defined.

(** C5 as stated fails on a ledger that holds the appointment twice: one
    cancellation removes both records. *)
Lemma cancel_appointment_removes_both :
  files twice_booked_world !! appointments_csv
  = Some (ledger_file [alice_0900; bob_1000; alice_0900])
  ∧ (cancel_appointment ascii_repr_list (lit "alice") twice_booked_world).2
    = CancelledSuccessfully
  ∧ files (cancel_appointment ascii_repr_list (lit "alice")
             twice_booked_world).1 !! appointments_csv
    = Some (ledger_file [bob_1000]).
Proof. by vm_compute. Qed.

(** Without an appointments file nothing is written either. *)
Lemma cancel_appointment_no_file (repr_list : list pystr → pystr)
    (username : pystr) (w : world) (line1 line2 : pystr) (rest : list pystr) :
  files w !! appointments_csv = None →
  stdin w = line1 :: line2 :: rest →
  cancel_appointment repr_list username w
  = (World (files w) rest, NoAppointmentsFound).
Proof.
  intros Hfile Hin. unfold cancel_appointment, input. rewrite Hin.
  cbn [files stdin].
  by rewrite Hfile.
Qed.

(** C6. A cancellation changes no file but the appointments file: every
    other path, the schedule file among them, holds after it what it held
    before, whatever the outcome. *)
Theorem cancel_appointment_only_ledger (repr_list : list pystr → pystr)
    (username : pystr) (w : world) (path : pystr) :
  path ≠ appointments_csv →
  files (cancel_appointment repr_list username w).1 !! path = files w !! path.
Proof.
  intros Hpath. unfold cancel_appointment, input.
  destruct (stdin w) as [|line1 [|line2 rest]]; [done..|]. cbn [files stdin].
  destruct (files w !! appointments_csv) as [f|]; [|done].
  destruct (rfilter _ (dict_reader f)) as [updated|e]; [|done].
  destruct (_ <? _)%nat; [|done].
  destruct (write_table _ _ _) as [written [e|]]; cbn;
    by rewrite lookup_insert_ne.
Qed.

Lemma cancel_appointment_only_ledger_witness :
  (cancel_appointment ascii_repr_list (lit "alice") twice_booked_world).2
  = CancelledSuccessfully
  ∧ files (cancel_appointment ascii_repr_list (lit "alice")
             twice_booked_world).1 !! schedule_csv
    = files twice_booked_world !! schedule_csv.
Proof.
  split; [by vm_compute|].
  apply (cancel_appointment_only_ledger ascii_repr_list (lit "alice")
           twice_booked_world schedule_csv).
  by vm_compute.
Defined.

(** ** Rows of a rectangular table *)

Lemma dict_get_zip (keys : list pykey) (vals : list pyval) (i : nat)
    (k : pykey) (v : pyval) :
  NoDup keys → keys !! i = Some k → vals !! i = Some v →
  dict_get k (zip keys vals) = Some v.
Proof.
  intros Hnd. revert vals i.
  induction Hnd as [|k0 keys Hk0 _ IH]; intros [|v0 vals] [|i] Hk Hv;
    try done; simpl in *.
  - injection Hk as ->. injection Hv as ->. by rewrite decide_True.
  - rewrite decide_False; [by eapply IH|].
    intros ->. apply Hk0. by eapply list_elem_of_lookup_2.
Qed.

Lemma dict_set_zip (keys : list pykey) (vals : list pyval) (i : nat)
    (k : pykey) (v : pyval) :
  NoDup keys → keys !! i = Some k → (i < length vals)%nat →
  dict_set k v (zip keys vals) = zip keys (<[i := v]> vals).
Proof.
  intros Hnd. revert vals i.
  induction Hnd as [|k0 keys Hk0 _ IH]; intros [|v0 vals] [|i] Hk Hi;
    try done; simpl in *; try lia.
  - injection Hk as ->. by rewrite decide_True.
  - rewrite decide_False; [f_equal; apply IH; [done | lia]|].
    intros ->. apply Hk0. by eapply list_elem_of_lookup_2.
Qed.

Lemma dict_keys_zip (keys : list pykey) (vals : list pyval) :
  length keys = length vals → dict_keys (zip keys vals) = keys.
Proof. intros Hlen. unfold dict_keys. apply fst_zip. lia. Qed.

Lemma dict_set_fresh (k : pykey) (v : pyval) (d : row) :
  k ∉ dict_keys d → dict_set k v d = d ++ [(k, v)].
Proof.
  unfold dict_keys. induction d as [|[k0 v0] d IH]; intros Hk; [done|].
  simpl in *. apply not_elem_of_cons in Hk as [Hne Hk].
  rewrite decide_False by congruence. f_equal. by apply IH.
Qed.

Lemma mk_row_rect (fieldnames fields : list pystr) :
  NoDup fieldnames → length fields = length fieldnames →
  mk_row fieldnames fields = zip (Some <$> fieldnames) (VStr <$> fields).
Proof.
  intros Hnd Hlen. unfold mk_row.
  rewrite (proj2 (Nat.ltb_ge _ _)) by lia.
  rewrite drop_ge by lia. cbn [foldl].
  enough (Hgen : ∀ hs fs d, NoDup hs →
            (∀ h, h ∈ hs → Some h ∉ dict_keys d) →
            foldl (fun d kv => dict_set (Some kv.1) (VStr kv.2) d) d
                  (zip hs fs)
            = d ++ zip (Some <$> hs) (VStr <$> fs)).
  { rewrite Hgen; [done | done |]. intros h _. apply not_elem_of_nil. }
  clear. induction hs as [|h hs IH]; intros [|f0 fs] d Hnd Hfresh;
    simpl; rewrite ?app_nil_r; try done.
  apply NoDup_cons in Hnd as [Hh Hnd].
  rewrite IH; [|done|].
  - rewrite dict_set_fresh by (apply Hfresh; left).
    by rewrite <-app_assoc.
  - intros h' Hh'. rewrite dict_keys_set.
    case_bool_decide.
    + apply Hfresh. by right.
    + intros [?|[= ->]%list_elem_of_singleton]%elem_of_app; [|done].
      by eapply Hfresh; [right|].
Qed.

Lemma dict_to_list_zip (repr_list : list pystr → pystr)
    (keys : list pykey) (fields : list pystr) :
  NoDup keys → length fields = length keys →
  dict_to_list repr_list keys (zip keys (VStr <$> fields)) = Ok fields.
Proof.
  intros Hnd Hlen. unfold dict_to_list.
  rewrite dict_keys_zip by (by rewrite length_fmap).
  rewrite bool_decide_eq_true_2 by (by apply Forall_forall).
  f_equal. apply list_eq. intros i. rewrite list_lookup_fmap.
  destruct (keys !! i) as [k|] eqn:Hk; simpl.
  - destruct (lookup_lt_is_Some_2 fields i) as [f0 Hf].
    { rewrite Hlen. by eapply lookup_lt_Some. }
    rewrite (dict_get_zip keys _ i k (VStr f0)); [by rewrite Hf | done..|].
    by rewrite list_lookup_fmap, Hf.
  - symmetry. apply lookup_ge_None. rewrite Hlen. by apply lookup_ge_None.
Qed.

Lemma rfilter_fmap_pure {A B} (g : A → B) (p : B → res bool) (q : A → bool)
    (l : list A) :
  Forall (fun a => p (g a) = Ok (q a)) l →
  rfilter p (g <$> l) = Ok (g <$> filter (fun a => q a) l).
Proof.
  induction 1 as [|a l Ha _ IH]; [done|].
  rewrite fmap_cons, filter_cons. cbn [rfilter]. rewrite Ha.
  cbn [mbind res_bind]. rewrite IH. cbn [mbind res_bind].
  destruct (q a).
  - by rewrite decide_True by done.
  - by rewrite decide_False by (by intros ?).
Qed.

Lemma dict_reader_rect (fieldnames : list pystr) (records : csvfile) :
  rectangular (fieldnames :: records) →
  dict_reader (fieldnames :: records) = mk_row fieldnames <$> records.
Proof.
  intros (Hne & _ & Hlen). unfold dict_reader. f_equal.
  induction Hlen as [|r records Hr _ IH]; [done|].
  rewrite filter_cons_True; [by rewrite IH|].
  intros ->. by destruct fieldnames.
Qed.

(** The rows of one MHWP in a rectangular schedule. *)
Lemma rfilter_mhwp_rect (mhwp_username : pystr) (fieldnames : list pystr)
    (records : csvfile) (all : list row) :
  rfilter (fun r => v ← field "mhwp_username" r; Ok (eq_str v mhwp_username))
          (mk_row fieldnames <$> records) = Ok all →
  all ≠ [] →
  all = mk_row fieldnames <$>
          filter (fun rec => row_of_mhwp mhwp_username (mk_row fieldnames rec))
                 records.
Proof.
  intros Hall Hne.
  destruct (decide (lit "mhwp_username" ∈ fieldnames)) as [Hin|Hnin].
  - rewrite (rfilter_fmap_pure (mk_row fieldnames) _
               (fun rec => row_of_mhwp mhwp_username (mk_row fieldnames rec)))
      in Hall; [by injection Hall|].
    apply Forall_forall. intros rec _.
    pose proof (mk_row_named (lit "mhwp_username") fieldnames rec) as H.
    rewrite bool_decide_eq_true_2 in H by done. destruct H as (v & Hv & _).
    unfold field, getitem, row_of_mhwp. by rewrite Hv.
  - destruct records as [|rec records]; [by injection Hall as <-|].
    pose proof (mk_row_named (lit "mhwp_username") fieldnames rec) as H.
    rewrite bool_decide_eq_false_2 in H by done.
    rewrite fmap_cons in Hall. cbn [rfilter] in Hall.
    unfold field, getitem in Hall. by rewrite H in Hall.
Qed.

Lemma writerows_rect (repr_list : list pystr → pystr)
    (fieldnames : list pystr) (records written : csvfile) :
  NoDup fieldnames →
  Forall (fun r => length r = length fieldnames) records →
  writerows repr_list (Some <$> fieldnames) (mk_row fieldnames <$> records)
            written
  = (written ++ records, None).
Proof.
  intros Hnd Hlen. revert written.
  induction Hlen as [|rec records Hrec _ IH]; intros written.
  - by rewrite app_nil_r.
  - rewrite fmap_cons. cbn [writerows].
    rewrite mk_row_rect, dict_to_list_zip; try done.
    + rewrite IH. by rewrite <-app_assoc.
    + by apply (NoDup_fmap_2 _).
    + by rewrite length_fmap.
Qed.

(** ** Booking *)

(** What is known when [choose_date] hands a date over to the selection
    loop. *)
Lemma choose_date_inr (mhwp_username schedule_file : pystr) (w w1 : world)
    (c : chosen_date) :
  choose_date mhwp_username schedule_file w = (w1, inr c) →
  ∃ f line0 hits,
    files w !! schedule_file = Some f
    ∧ stdin w = line0 :: stdin w1
    ∧ files w1 = files w
    ∧ rfilter (fun r => v ← field "mhwp_username" r;
                        Ok (eq_str v mhwp_username)) (dict_reader f)
      = Ok (all_schedules c)
    ∧ all_schedules c ≠ []
    ∧ selected_date c = strip line0
    ∧ rmap (fun r => v ← field "Date" r; Ok (eq_str v (strip line0)))
           (all_schedules c) = Ok hits
    ∧ first_true hits = Some (first_pos c)
    ∧ extract_available_slots (select_rows hits (all_schedules c))
      = Ok (available_slots c)
    ∧ available_slots c ≠ [].
Proof.
  unfold choose_date, input. intros H.
  destruct (files w !! schedule_file) as [f|]; [|done].
  destruct (rfilter _ (dict_reader f)) as [[|r all]|e] eqn:Hall; try done.
  destruct (stdin w) as [|line0 lines] eqn:Hin; [done|].
  destruct (rmap _ (r :: all)) as [hits|e] eqn:Hhits; [|done].
  destruct (first_true hits) as [j|] eqn:Hj; [|done].
  destruct (extract_available_slots _) as [[|s avail]|e] eqn:Hx; try done.
  injection H as <- <-. exists f, line0, hits. simpl.
  by repeat (split; [done|]).
Qed.

Lemma parse_indices_no_digits (isdigit : pystr → bool)
    (int : pystr → option Z) (line : pystr) :
  Forall (fun t => isdigit (strip t) = false) (split comma (strip line)) →
  parse_indices isdigit int line = Ok [].
Proof.
  unfold parse_indices.
  induction 1 as [|t ts Ht _ IH]; [done|].
  rewrite filter_cons_False; [done|]. rewrite Ht. by intros ?.
Qed.

(** C10, as the code has it.  When the schedule is a rectangular table and
    the function has reached the selection prompt, a line none of whose
    comma-separated tokens is digit-only is accepted at once as a selection
    of no slot: that single line is consumed, the schedule file is written
    back with its header and the rows of the selected MHWP, all unchanged
    and in their order, the appointments file gets no record (it is created
    empty when absent), and the booking is reported as successful. *)
Theorem patient_select_slots_no_digit_tokens
    (isdigit : pystr → bool) (int : pystr → option Z)
    (repr_list : list pystr → pystr)
    (patient_username mhwp_username schedule_file appointments_file : pystr)
    (w w1 : world) (c : chosen_date) (fieldnames : list pystr)
    (records : csvfile) (line : pystr) (rest : list pystr) :
  schedule_file ≠ appointments_file →
  files w !! schedule_file = Some (fieldnames :: records) →
  rectangular (fieldnames :: records) →
  choose_date mhwp_username schedule_file w = (w1, inr c) →
  stdin w1 = line :: rest →
  Forall (fun t => isdigit (strip t) = false) (split comma (strip line)) →
  patient_select_slots isdigit int repr_list patient_username mhwp_username
    schedule_file appointments_file w
  = (World
       (<[appointments_file := default [] (files w !! appointments_file)]>
          (<[schedule_file :=
               fieldnames
               :: filter (fun rec => row_of_mhwp mhwp_username
                                       (mk_row fieldnames rec)) records]>
             (files w)))
       rest,
     BookedSuccessfully).
Proof.
  intros Hpaths Hfile Hrect Hchoose Hin Hnone.
  unfold patient_select_slots.
  assert (file_exists schedule_file w = true) as ->.
  { unfold file_exists. apply bool_decide_eq_true_2. rewrite Hfile. eauto. }
  rewrite Hchoose, Hin. cbn [selection_loop].
  rewrite (parse_indices_no_digits _ _ _ Hnone).
  assert (valid_selection (available_slots c) [] = true) as -> by done.
  apply choose_date_inr in Hchoose
    as (f & line0 & hits & Hf & _ & Hfiles & Hall & Hne & _ & Hhits & Hj & _).
  rewrite Hfile in Hf. injection Hf as <-.
  rewrite dict_reader_rect in Hall by done.
  apply rfilter_mhwp_rect in Hall; [|done].
  pose proof (first_true_select_rows hits (all_schedules c)
                (rmap_length _ _ _ Hhits)) as Hpos.
  rewrite Hj in Hpos. destruct Hpos as (r0 & Hr0 & _).
  unfold book. rewrite Hr0. cbn [mark_slots].
  rewrite list_insert_id by done.
  destruct Hrect as (_ & Hnd & Hlen).
  assert (Hkeys : dict_keys r0 = Some <$> fieldnames).
  { apply list_elem_of_lookup_2 in Hr0. rewrite Hall in Hr0.
    apply list_elem_of_fmap in Hr0 as (rec & -> & Hrec).
    apply list_elem_of_filter in Hrec as [_ Hrec].
    assert (Hrl : length rec = length fieldnames)
      by exact (proj1 (Forall_forall _ _) Hlen rec Hrec).
    rewrite mk_row_rect by done.
    apply dict_keys_zip. by rewrite !length_fmap. }
  unfold write_table. rewrite Hkeys, Hall, writerows_rect; [|done|].
  2: { apply Forall_forall. intros rec [_ Hrec]%list_elem_of_filter.
       exact (proj1 (Forall_forall _ _) Hlen rec Hrec). }
  cbn [append_appointments]. unfold set_file. cbn [files stdin].
  rewrite lookup_insert_ne by done. rewrite Hfiles.
  do 3 f_equal. f_equal. rewrite <-list_fmap_compose.
  by rewrite list_fmap_id.
Qed.

Lemma patient_select_slots_no_digit_tokens_witness :
  patient_select_slots ascii_isdigit ascii_int ascii_repr_list (lit "alice")
    (lit "drsmith") schedule_csv appointments_csv two_mhwp_world
  = (World
       (<[appointments_csv :=
            default [] (files two_mhwp_world !! appointments_csv)]>
          (<[schedule_csv :=
               day_header
               :: filter (fun rec => row_of_mhwp (lit "drsmith")
                                       (mk_row day_header rec))
                    [[lit "drsmith"; lit "2024/03/01"; lit "Friday"; OPEN;
                      OPEN; BOOKED];
                     [lit "drjones"; lit "2024/03/01"; lit "Friday"; OPEN;
                      BOOKED; OPEN]]]>
             (files two_mhwp_world)))
       [],
     BookedSuccessfully).
Proof.
  eapply (patient_select_slots_no_digit_tokens ascii_isdigit ascii_int
            ascii_repr_list (lit "alice") (lit "drsmith") schedule_csv
            appointments_csv two_mhwp_world _ _ day_header _
            (lit "abc,xy") []).
  - by vm_compute.
  - by vm_compute.
  - split; [done|]. split; [|by repeat constructor].
    assert (H : bool_decide (NoDup day_header) = true) by (by vm_compute).
    by apply bool_decide_eq_true in H.
  - vm_compute. reflexivity.
  - reflexivity.
  - vm_compute. by repeat constructor.
Defined.

(** C10 as stated fails on a schedule that also holds the row of another
    MHWP: letters are accepted as an empty selection and the booking is
    reported as successful, but the schedule file is not written back
    with unchanged contents, the row of [drjones] is gone. *)
Lemma patient_select_slots_drops_other_rows :
  let r := patient_select_slots ascii_isdigit ascii_int ascii_repr_list
             (lit "alice") (lit "drsmith") schedule_csv appointments_csv
             two_mhwp_world in
  r.2 = BookedSuccessfully
  ∧ files two_mhwp_world !! schedule_csv
    = Some [day_header;
            [lit "drsmith"; lit "2024/03/01"; lit "Friday"; OPEN; OPEN;
             BOOKED];
            [lit "drjones"; lit "2024/03/01"; lit "Friday"; OPEN; BOOKED;
             OPEN]]
  ∧ files r.1 !! schedule_csv
    = Some [day_header;
            [lit "drsmith"; lit "2024/03/01"; lit "Friday"; OPEN; OPEN;
             BOOKED]]
  ∧ files r.1 !! schedule_csv ≠ files two_mhwp_world !! schedule_csv.
Proof. by vm_compute. Qed.

(** The selection loop accepts a list of indices exactly when all of them
    are open and there are at most two. *)
Lemma valid_selection_spec (avail : list (Z * pykey)) (sel : list Z) :
  valid_selection avail sel = true
  ↔ (∀ idx, idx ∈ sel → idx ∈ avail.*1) ∧ (length sel ≤ 2)%nat.
Proof.
  unfold valid_selection. rewrite andb_true_iff, Nat.leb_le.
  rewrite forallb_forall. apply and_iff_compat_r. split.
  - intros H idx Hidx. apply list_elem_of_In in Hidx.
    by eapply bool_decide_eq_true_1, H.
  - intros H idx Hidx. apply list_elem_of_In in Hidx.
    by apply bool_decide_eq_true_2, H.
Qed.

Lemma selection_loop_accept (isdigit : pystr → bool) (int : pystr → option Z)
    (avail : list (Z * pykey)) (line : pystr) (rest : list pystr)
    (sel : list Z) :
  parse_indices isdigit int line = Ok sel →
  valid_selection avail sel = true →
  selection_loop isdigit int avail (line :: rest) = (rest, Ok sel).
Proof. intros Hp Hv. cbn [selection_loop]. by rewrite Hp, Hv. Qed.

(** A rejected line costs one prompt and nothing else: the loop has no
    access to the files and goes on with the next line. *)
Lemma selection_loop_reject (isdigit : pystr → bool) (int : pystr → option Z)
    (avail : list (Z * pykey)) (line : pystr) (rest : list pystr)
    (sel : list Z) :
  parse_indices isdigit int line = Ok sel →
  valid_selection avail sel = false →
  selection_loop isdigit int avail (line :: rest)
  = selection_loop isdigit int avail rest.
Proof. intros Hp Hv. cbn [selection_loop]. by rewrite Hp, Hv. Qed.

(** C1, the code at a failing input.  The slots at indices 1 and 2 are
    open and the patient selects index 1; the selection is accepted and
    the booking reported as successful, but the slot marked BOOKED in the
    persisted schedule and recorded in the ledger is the one at index 2:
    the slot at index 1 is still OPEN and has no record. *)
Theorem patient_select_slots_books_other_slot :
  let r := patient_select_slots ascii_isdigit ascii_int ascii_repr_list
             (lit "alice") (lit "drsmith") schedule_csv appointments_csv
             shifted_world in
  files shifted_world !! schedule_csv
  = Some [day_header;
          [lit "drsmith"; lit "2024/03/01"; lit "Friday"; BOOKED; OPEN; OPEN]]
  ∧ extract_available_slots
      (dict_reader
         [day_header;
          [lit "drsmith"; lit "2024/03/01"; lit "Friday"; BOOKED; OPEN;
           OPEN]])
    = Ok [(1, Some (lit "10:00")); (2, Some (lit "11:00"))]
  ∧ parse_indices ascii_isdigit ascii_int (lit "1") = Ok [1]
  ∧ r.2 = BookedSuccessfully
  ∧ files r.1 !! schedule_csv
    = Some [day_header;
            [lit "drsmith"; lit "2024/03/01"; lit "Friday"; BOOKED; OPEN;
             BOOKED]]
  ∧ files r.1 !! appointments_csv
    = Some [[lit "alice"; lit "drsmith"; lit "2024/03/01"; lit "11:00"]].
Proof. by vm_compute. Qed.

(** C3, the code at a failing input.  Only the slot at index 1 is open and
    the patient selects it; the selection passes the validation of the
    loop, and the function then ends in [IndexError] with both files as
    they were. *)
Theorem patient_select_slots_open_index_fails :
  let r := patient_select_slots ascii_isdigit ascii_int ascii_repr_list
             (lit "alice") (lit "drsmith") schedule_csv appointments_csv
             middle_open_world in
  files middle_open_world !! schedule_csv
  = Some [day_header;
          [lit "drsmith"; lit "2024/03/01"; lit "Friday"; BOOKED; OPEN;
           BOOKED]]
  ∧ extract_available_slots
      (dict_reader
         [day_header;
          [lit "drsmith"; lit "2024/03/01"; lit "Friday"; BOOKED; OPEN;
           BOOKED]])
    = Ok [(1, Some (lit "10:00"))]
  ∧ parse_indices ascii_isdigit ascii_int (lit "1") = Ok [1]
  ∧ valid_selection [(1, Some (lit "10:00"))] [1] = true
  ∧ r.2 = Error IndexError
  ∧ files r.1 = files middle_open_world.
Proof. by vm_compute. Qed.

(** ** The scenario of [drsmith] and [alice] *)

Lemma scenario_header_NoDup (third : pystr) :
  third ∉ [lit "mhwp_username"; lit "Date"; lit "09:00"; lit "10:00";
           lit "11:00"] →
  NoDup (scenario_header third).
Proof.
  intros Hthird.
  assert (Hrest : NoDup [lit "mhwp_username"; lit "Date"; lit "09:00";
                         lit "10:00"; lit "11:00"]).
  { assert (H : bool_decide (NoDup [lit "mhwp_username"; lit "Date";
                                    lit "09:00"; lit "10:00"; lit "11:00"])
                = true) by (by vm_compute).
    by apply bool_decide_eq_true in H. }
  unfold scenario_header.
  apply (NoDup_Permutation_proper _ _
           (Permutation_middle [lit "mhwp_username"; lit "Date"] _ third)).
  by apply NoDup_cons.
Qed.

Lemma scenario_extract (third third_cell c0 c1 c2 : pystr) (others : list row) :
  NoDup (scenario_header third) →
  extract_available_slots
    (zip (Some <$> scenario_header third)
         (VStr <$> scenario_record third_cell c0 c1 c2) :: others)
  = Ok ((if bool_decide (strip c0 = OPEN) then [(0, Some (lit "09:00"))]
         else [])
        ++ (if bool_decide (strip c1 = OPEN) then [(1, Some (lit "10:00"))]
            else [])
        ++ (if bool_decide (strip c2 = OPEN) then [(2, Some (lit "11:00"))]
            else [])).
Proof.
  intros Hnd. apply (NoDup_fmap_2 Some) in Hnd.
  unfold extract_available_slots, slot_columns.
  rewrite dict_keys_zip by done.
  change (drop 3 (Some <$> scenario_header third))
    with [Some (lit "09:00"); Some (lit "10:00"); Some (lit "11:00")].
  cbn [scan_slots]. unfold getitem.
  rewrite (dict_get_zip _ _ 3 (Some (lit "09:00")) (VStr c0) Hnd);
    [|reflexivity..].
  rewrite (dict_get_zip _ _ 4 (Some (lit "10:00")) (VStr c1) Hnd);
    [|reflexivity..].
  rewrite (dict_get_zip _ _ 5 (Some (lit "11:00")) (VStr c2) Hnd);
    [|reflexivity..].
  cbn [mbind res_bind val_strip].
  by repeat case_bool_decide.
Qed.

Lemma scenario_reader (third third_cell c0 c1 c2 : pystr) :
  NoDup (scenario_header third) →
  dict_reader [scenario_header third; scenario_record third_cell c0 c1 c2]
  = [zip (Some <$> scenario_header third)
         (VStr <$> scenario_record third_cell c0 c1 c2)].
Proof.
  intros Hnd. unfold dict_reader.
  rewrite filter_cons_True by done. rewrite filter_nil.
  cbn [fmap list_fmap]. by rewrite mk_row_rect.
Qed.

Lemma scenario_choose_date (third third_cell sf : pystr) (w : world)
    (lines : list pystr) :
  NoDup (scenario_header third) →
  files w !! sf
  = Some [scenario_header third;
          scenario_record third_cell OPEN OPEN BOOKED] →
  stdin w = lit "2024/03/01" :: lines →
  choose_date (lit "drsmith") sf w
  = (World (files w) lines,
     inr (ChosenDate
            [zip (Some <$> scenario_header third)
                 (VStr <$> scenario_record third_cell OPEN OPEN BOOKED)]
            0 (lit "2024/03/01")
            [(0, Some (lit "09:00")); (1, Some (lit "10:00"))])).
Proof.
  intros Hnd Hfile Hin. pose proof (NoDup_fmap_2 Some _ Hnd) as HndK.
  unfold choose_date, input. rewrite Hfile, scenario_reader, Hin by done.
  cbn [rfilter]. unfold field, getitem.
  rewrite (dict_get_zip _ _ 0 (Some (lit "mhwp_username"))
             (VStr (lit "drsmith")) HndK); [|reflexivity..].
  cbn [mbind res_bind eq_str]. rewrite bool_decide_eq_true_2 by done.
  assert (strip (lit "2024/03/01") = lit "2024/03/01") as -> by (by vm_compute).
  cbn [rmap].
  rewrite (dict_get_zip _ _ 1 (Some (lit "Date"))
             (VStr (lit "2024/03/01")) HndK); [|reflexivity..].
  cbn [mbind res_bind eq_str]. rewrite bool_decide_eq_true_2 by done.
  cbn [first_true select_rows]. rewrite scenario_extract by done.
  assert (bool_decide (strip OPEN = OPEN) = true) as -> by (by vm_compute).
  by assert (bool_decide (strip BOOKED = OPEN) = false) as ->
    by (by vm_compute).
Qed.

(** Marking and writing back the two slots of the scenario. *)
Lemma scenario_book (repr_list : list pystr → pystr)
    (third third_cell sf af : pystr) (w : world) :
  NoDup (scenario_header third) →
  sf ≠ af →
  book repr_list (lit "alice") (lit "drsmith") sf af
    (ChosenDate
       [zip (Some <$> scenario_header third)
            (VStr <$> scenario_record third_cell OPEN OPEN BOOKED)]
       0 (lit "2024/03/01")
       [(0, Some (lit "09:00")); (1, Some (lit "10:00"))])
    [0; 1] w
  = (World
       (<[af :=
            default [] (files w !! af)
            ++ [[lit "alice"; lit "drsmith"; lit "2024/03/01"; lit "09:00"];
                [lit "alice"; lit "drsmith"; lit "2024/03/01"; lit "10:00"]]]>
          (<[sf := [scenario_header third;
                    scenario_record third_cell BOOKED BOOKED BOOKED]]>
             (files w)))
       (stdin w),
     BookedSuccessfully).
Proof.
  intros Hnd Hpaths. pose proof (NoDup_fmap_2 Some _ Hnd) as HndK.
  unfold book. cbn [all_schedules first_pos available_slots selected_date].
  change ([?r] !! 0%nat) with (Some r). cbn [mark_slots append_appointments].
  change (list_index [(0, Some (lit "09:00")); (1, Some (lit "10:00"))] 0)
    with (Ok (0, Some (lit "09:00"))).
  change (list_index [(0, Some (lit "09:00")); (1, Some (lit "10:00"))] 1)
    with (Ok (1, Some (lit "10:00"))).
  cbn [mbind res_bind snd].
  rewrite (dict_set_zip _ _ 3) by (done || (cbn; lia)).
  rewrite (dict_set_zip _ _ 4) by (done || (cbn; lia)).
  change (<[4%nat:=VStr BOOKED]>
            (<[3%nat:=VStr BOOKED]>
               (VStr <$> scenario_record third_cell OPEN OPEN BOOKED)))
    with (VStr <$> scenario_record third_cell BOOKED BOOKED BOOKED).
  rewrite dict_keys_zip by done.
  unfold write_table. change (<[0%nat:=?x]> [?y]) with [x].
  cbn [writerows]. rewrite dict_to_list_zip by done. cbn [app].
  change (key_text <$> (Some <$> scenario_header third))
    with (scenario_header third).
  unfold set_file, key_text. cbn [files stdin default].
  rewrite lookup_insert_ne by done. by rewrite <-app_assoc.
Qed.

(** C7. The schedule holds the row of [drsmith] for 2024/03/01 with the
    slot columns 09:00 = OPEN, 10:00 = OPEN and 11:00 = BOOKED after three
    leading columns, and [alice] types the date and a line that reads as
    the indices 0 and 1.  The booking succeeds, both slots are BOOKED in
    the schedule as written back, two records with that date, one per
    slot, are appended to the appointments file, and
    [extract_available_slots] on the row as read back returns the empty
    list. *)
Theorem scenario_alice_books_two_slots
    (isdigit : pystr → bool) (int : pystr → option Z)
    (repr_list : list pystr → pystr)
    (third third_cell schedule_file appointments_file : pystr) (w : world)
    (line : pystr) (rest : list pystr) :
  third ∉ [lit "mhwp_username"; lit "Date"; lit "09:00"; lit "10:00";
           lit "11:00"] →
  schedule_file ≠ appointments_file →
  files w !! schedule_file
  = Some [scenario_header third;
          scenario_record third_cell OPEN OPEN BOOKED] →
  stdin w = lit "2024/03/01" :: line :: rest →
  parse_indices isdigit int line = Ok [0; 1] →
  let r := patient_select_slots isdigit int repr_list (lit "alice")
             (lit "drsmith") schedule_file appointments_file w in
  r.2 = BookedSuccessfully
  ∧ stdin r.1 = rest
  ∧ files r.1 !! schedule_file
    = Some [scenario_header third;
            scenario_record third_cell BOOKED BOOKED BOOKED]
  ∧ files r.1 !! appointments_file
    = Some (default [] (files w !! appointments_file)
            ++ [[lit "alice"; lit "drsmith"; lit "2024/03/01"; lit "09:00"];
                [lit "alice"; lit "drsmith"; lit "2024/03/01"; lit "10:00"]])
  ∧ extract_available_slots
      (dict_reader [scenario_header third;
                    scenario_record third_cell BOOKED BOOKED BOOKED])
    = Ok [].
Proof.
  intros Hthird Hpaths Hfile Hin Hparse.
  pose proof (scenario_header_NoDup third Hthird) as Hnd.
  assert (Hrun :
    patient_select_slots isdigit int repr_list (lit "alice") (lit "drsmith")
      schedule_file appointments_file w
    = (World
         (<[appointments_file :=
              default [] (files w !! appointments_file)
              ++ [[lit "alice"; lit "drsmith"; lit "2024/03/01";
                   lit "09:00"];
                  [lit "alice"; lit "drsmith"; lit "2024/03/01";
                   lit "10:00"]]]>
            (<[schedule_file :=
                 [scenario_header third;
                  scenario_record third_cell BOOKED BOOKED BOOKED]]>
               (files w)))
         rest,
       BookedSuccessfully)).
  { unfold patient_select_slots.
    assert (file_exists schedule_file w = true) as ->.
    { unfold file_exists. apply bool_decide_eq_true_2. rewrite Hfile. eauto. }
    rewrite (scenario_choose_date third third_cell schedule_file w
               (line :: rest) Hnd Hfile Hin).
    cbn [available_slots stdin files].
    rewrite (selection_loop_accept isdigit int _ line rest [0; 1] Hparse)
      by done.
    by rewrite scenario_book. }
  cbn zeta. rewrite Hrun. cbn [fst snd files stdin].
  split; [done|]. split; [done|]. split; [|split].
  - rewrite lookup_insert_ne by done. by rewrite lookup_insert_eq.
  - by rewrite lookup_insert_eq.
  - rewrite scenario_reader, scenario_extract by done.
    by assert (bool_decide (strip BOOKED = OPEN) = false) as ->
      by (by vm_compute).
Qed.

Lemma scenario_alice_books_two_slots_witness :
  let w := drsmith_world [OPEN; OPEN; BOOKED]
             [lit "2024/03/01"; lit "0,1"] in
  let r := patient_select_slots ascii_isdigit ascii_int ascii_repr_list
             (lit "alice") (lit "drsmith") schedule_csv appointments_csv w in
  r.2 = BookedSuccessfully
  ∧ stdin r.1 = []
  ∧ files r.1 !! schedule_csv
    = Some [scenario_header (lit "Day");
            scenario_record (lit "Friday") BOOKED BOOKED BOOKED]
  ∧ files r.1 !! appointments_csv
    = Some (default [] (files w !! appointments_csv)
            ++ [[lit "alice"; lit "drsmith"; lit "2024/03/01"; lit "09:00"];
                [lit "alice"; lit "drsmith"; lit "2024/03/01"; lit "10:00"]])
  ∧ extract_available_slots
      (dict_reader [scenario_header (lit "Day");
                    scenario_record (lit "Friday") BOOKED BOOKED BOOKED])
    = Ok [].
Proof.
  apply (scenario_alice_books_two_slots ascii_isdigit ascii_int
           ascii_repr_list (lit "Day") (lit "Friday") schedule_csv
           appointments_csv
           (drsmith_world [OPEN; OPEN; BOOKED] [lit "2024/03/01"; lit "0,1"])
           (lit "0,1") []).
  - assert (H : bool_decide
                  (lit "Day" ∉ [lit "mhwp_username"; lit "Date"; lit "09:00";
                                lit "10:00"; lit "11:00"]) = true)
      by (by vm_compute).
    by apply bool_decide_eq_true in H.
  - by vm_compute.
  - by vm_compute.
  - reflexivity.
  - by vm_compute.
Defined.

(** C7 as stated, with the three slot columns right after [mhwp_username]
    and [Date], fails: the column of 09:00 is not among the slot columns
    of the code, the only open index is 0 for 10:00, the line [0,1] is
    not accepted, and with no further line the function ends in
    [EOFError] with nothing booked and no record appended. *)
Lemma scenario_two_leading_columns_books_nothing :
  let w := two_leading_world [OPEN; OPEN; BOOKED]
             [lit "2024/03/01"; lit "0,1"] in
  let r := patient_select_slots ascii_isdigit ascii_int ascii_repr_list
             (lit "alice") (lit "drsmith") schedule_csv appointments_csv w in
  files w !! schedule_csv
  = Some [[lit "mhwp_username"; lit "Date"; lit "09:00"; lit "10:00";
           lit "11:00"];
          [lit "drsmith"; lit "2024/03/01"; OPEN; OPEN; BOOKED]]
  ∧ extract_available_slots
      (dict_reader (two_leading_file [OPEN; OPEN; BOOKED]))
    = Ok [(0, Some (lit "10:00"))]
  ∧ parse_indices ascii_isdigit ascii_int (lit "0,1") = Ok [0; 1]
  ∧ valid_selection [(0, Some (lit "10:00"))] [0; 1] = false
  ∧ r.2 = Error EOFError
  ∧ files r.1 = files w
  ∧ files r.1 !! appointments_csv = None.
Proof. by vm_compute. Qed.

(** * Further properties of the booking functions *)

(** ** What [patient_select_slots] leaves alone *)

Lemma choose_date_files (mhwp_username schedule_file : pystr) (w : world) :
  files (choose_date mhwp_username schedule_file w).1 = files w.
Proof.
  unfold choose_date, input.
  destruct (files w !! schedule_file) as [f|]; [|done].
  destruct (rfilter _ (dict_reader f)) as [[|r all]|e]; try done.
  destruct (stdin w) as [|line0 lines]; [done|].
  destruct (rmap _ (r :: all)) as [hits|e]; [|done].
  destruct (first_true hits) as [j|]; [|done].
  by destruct (extract_available_slots _) as [[|s avail]|e].
Qed.

Lemma dict_to_list_error (repr_list : list pystr → pystr)
    (fieldnames : list pykey) (d : row) (e : exn) :
  dict_to_list repr_list fieldnames d = Raise e → e = ValueError.
Proof. unfold dict_to_list. case_bool_decide; [done | by intros [= <-]]. Qed.

Lemma writerows_error (repr_list : list pystr → pystr)
    (fieldnames : list pykey) (rows : list row) (written out : csvfile)
    (e : exn) :
  writerows repr_list fieldnames rows written = (out, Some e) →
  e = ValueError.
Proof.
  revert written. induction rows as [|r rows IH]; intros written; [done|].
  cbn [writerows].
  destruct (dict_to_list repr_list fieldnames r) as [record|e'] eqn:Hr.
  - apply IH.
  - intros [= _ <-]. by eapply dict_to_list_error.
Qed.

(** The indices that marked the row also resolve when the records are
    appended. *)
Lemma append_after_mark (patient_username mhwp_username date : pystr)
    (avail : list (Z * pykey)) (sel : list Z) (r0 r0' : row)
    (written : csvfile) :
  mark_slots avail sel r0 = Ok r0' →
  (append_appointments patient_username mhwp_username date avail sel
     written).2 = None.
Proof.
  revert r0 written. induction sel as [|idx sel IH]; intros r0 written H;
    [done|].
  cbn [mark_slots] in H. apply bind_Ok in H as (slot & Hslot & H).
  cbn [append_appointments]. rewrite Hslot. by eapply IH.
Qed.

(** X1.  Files other than the schedule and the appointments file are never
    written. *)
Theorem patient_select_slots_other_files
    (isdigit : pystr → bool) (int : pystr → option Z)
    (repr_list : list pystr → pystr)
    (patient_username mhwp_username schedule_file appointments_file : pystr)
    (w : world) (path : pystr) :
  path ≠ schedule_file → path ≠ appointments_file →
  files (patient_select_slots isdigit int repr_list patient_username
           mhwp_username schedule_file appointments_file w).1 !! path
  = files w !! path.
Proof.
  intros Hs Ha. unfold patient_select_slots.
  destruct (file_exists schedule_file w); [|done].
  pose proof (choose_date_files mhwp_username schedule_file w) as Hfiles.
  destruct (choose_date mhwp_username schedule_file w) as [w1 [o|c]];
    simpl in *; [by rewrite Hfiles|].
  destruct (selection_loop _ _ _ (stdin w1)) as [rest [sel|e]];
    simpl; [|by rewrite Hfiles].
  unfold book.
  destruct (all_schedules c !! first_pos c) as [r0|]; simpl;
    [|by rewrite Hfiles].
  destruct (mark_slots _ sel r0) as [r0'|e]; simpl; [|by rewrite Hfiles].
  destruct (write_table _ _ _) as [written [e|]]; simpl.
  - rewrite lookup_insert_ne by done. by rewrite Hfiles.
  - destruct (append_appointments _ _ _ _ _ _) as [ledger [e|]]; simpl;
      rewrite !lookup_insert_ne by done; by rewrite Hfiles.
Qed.

Lemma patient_select_slots_other_files_witness :
  files (patient_select_slots ascii_isdigit ascii_int ascii_repr_list
           (lit "alice") (lit "drsmith") schedule_csv appointments_csv
           shifted_world).1 !! assignments_csv
  = files shifted_world !! assignments_csv.
Proof.
  apply (patient_select_slots_other_files ascii_isdigit ascii_int
           ascii_repr_list (lit "alice") (lit "drsmith") schedule_csv
           appointments_csv shifted_world assignments_csv);
    by vm_compute.
Defined.

(** X2.  A run that ends before the schedule file is opened for writing
    has written nothing: with one of the four early returns, or with the
    exception of [input()] ([EOFError]), of a row lookup ([KeyError]), of
    [strip] on a missing cell ([AttributeError]) or of
    [available_slots[idx]] ([IndexError]), every file is as it was.  An
    exception of the two writers or of opening a file is none of these;
    nothing is said of those runs. *)
Theorem patient_select_slots_early_exit
    (isdigit : pystr → bool) (int : pystr → option Z)
    (repr_list : list pystr → pystr)
    (patient_username mhwp_username schedule_file appointments_file : pystr)
    (w : world) :
  let r := patient_select_slots isdigit int repr_list patient_username
             mhwp_username schedule_file appointments_file w in
  r.2 ∈ [ScheduleFileNotFound; NoScheduleForMhwp; NoScheduleForDate;
         NoAvailableSlots; Error EOFError; Error KeyError;
         Error AttributeError; Error IndexError] →
  files r.1 = files w.
Proof.
  cbn zeta. unfold patient_select_slots.
  destruct (file_exists schedule_file w); [|done].
  pose proof (choose_date_files mhwp_username schedule_file w) as Hfiles.
  destruct (choose_date mhwp_username schedule_file w) as [w1 [o|c]];
    simpl in *; [done|].
  destruct (selection_loop _ _ _ (stdin w1)) as [rest [sel|e]];
    simpl; [|done].
  unfold book.
  destruct (all_schedules c !! first_pos c) as [r0|]; simpl; [|done].
  destruct (mark_slots _ sel r0) as [r0'|e] eqn:Hmark; simpl; [|done].
  destruct (write_table _ _ _) as [written [e|]] eqn:Hw; simpl.
  - apply writerows_error in Hw as ->. intros Hin.
    repeat (apply elem_of_cons in Hin as [[=]|Hin]).
    by apply elem_of_nil in Hin.
  - pose proof (append_after_mark patient_username mhwp_username
                  (selected_date c) _ _ _ _
                  (default [] (<[schedule_file:=written]> (files w1)
                                 !! appointments_file)) Hmark) as Happ.
    destruct (append_appointments _ _ _ _ _ _) as [ledger [e|]]; [done|].
    intros Hin. repeat (apply elem_of_cons in Hin as [[=]|Hin]).
    by apply elem_of_nil in Hin.
Qed.

Lemma patient_select_slots_early_exit_witness :
  let r := patient_select_slots ascii_isdigit ascii_int ascii_repr_list
             (lit "alice") (lit "drsmith") schedule_csv appointments_csv
             middle_open_world in
  files r.1 = files middle_open_world.
Proof.
  apply (patient_select_slots_early_exit ascii_isdigit ascii_int
           ascii_repr_list (lit "alice") (lit "drsmith") schedule_csv
           appointments_csv middle_open_world).
  vm_compute. do 7 apply list_elem_of_further. apply list_elem_of_here.
Defined.

(** ** The selection loop and the indices it hands over *)

Lemma rmap_error {A B} (f : A → res B) (l : list A) (e e0 : exn) :
  (∀ a e', f a = Raise e' → e' = e0) → rmap f l = Raise e → e = e0.
Proof.
  intros Hf. induction l as [|a l IH]; [done|]. cbn [rmap].
  destruct (f a) as [b|e'] eqn:Ha; cbn.
  - destruct (rmap f l) as [bs|e'']; cbn; [done|].
    intros [= <-]. by apply IH.
  - intros [= <-]. by eapply Hf.
Qed.

Lemma parse_indices_error (isdigit : pystr → bool) (int : pystr → option Z)
    (line : pystr) (e : exn) :
  parse_indices isdigit int line = Raise e → e = ValueError.
Proof.
  apply rmap_error. intros idx e'. by destruct (int (strip idx)); intros [=].
Qed.

(** X3.  The loop prompts again after every rejected line and returns the
    first acceptable selection, having consumed exactly the lines up to
    it. *)
Theorem selection_loop_retries (isdigit : pystr → bool)
    (int : pystr → option Z) (avail : list (Z * pykey))
    (bad : list pystr) (line : pystr) (rest : list pystr) (sel : list Z) :
  Forall (rejected isdigit int avail) bad →
  parse_indices isdigit int line = Ok sel →
  valid_selection avail sel = true →
  selection_loop isdigit int avail (bad ++ line :: rest) = (rest, Ok sel).
Proof.
  intros Hbad Hparse Hvalid.
  induction Hbad as [|l bad Hl _ IH]; [by apply selection_loop_accept|].
  cbn [app selection_loop]. unfold rejected in Hl.
  destruct (parse_indices isdigit int l) as [sel'|e] eqn:Hp.
  - by rewrite Hl.
  - by apply parse_indices_error in Hp as ->.
Qed.

Lemma selection_loop_retries_witness :
  selection_loop ascii_isdigit ascii_int
    [(0, Some (lit "09:00")); (1, Some (lit "10:00"))]
    ([lit "0,1,0"; lit "2"] ++ lit "1" :: [lit "left"])
  = ([lit "left"], Ok [1]).
Proof.
  apply (selection_loop_retries ascii_isdigit ascii_int
           [(0, Some (lit "09:00")); (1, Some (lit "10:00"))]
           [lit "0,1,0"; lit "2"] (lit "1") [lit "left"] [1]).
  - repeat constructor; by vm_compute.
  - by vm_compute.
  - by vm_compute.
Defined.

Lemma list_index_Ok {A} (l : list A) (i : Z) (a : A) :
  list_index l i = Ok a →
  - Z.of_nat (length l) ≤ i < Z.of_nat (length l).
Proof.
  unfold list_index. destruct (i <? 0) eqn:Hi.
  - apply Z.ltb_lt in Hi.
    destruct ((0 <=? i + Z.of_nat (length l))
              && (i + Z.of_nat (length l) <? Z.of_nat (length l))) eqn:Hb;
      [|done].
    apply andb_true_iff in Hb as [H1%Z.leb_le H2%Z.ltb_lt]. lia.
  - apply Z.ltb_ge in Hi.
    destruct ((0 <=? i) && (i <? Z.of_nat (length l))) eqn:Hb; [|done].
    apply andb_true_iff in Hb as [H1%Z.leb_le H2%Z.ltb_lt]. lia.
Qed.

Lemma list_index_error {A} (l : list A) (i : Z) (e : exn) :
  list_index l i = Raise e → e = IndexError.
Proof.
  unfold list_index. destruct (_ && _); [|by intros [= <-]].
  destruct (l !! _); [done | by intros [= <-]].
Qed.

Lemma mark_slots_Ok (avail : list (Z * pykey)) (sel : list Z) (r0 r0' : row)
    (idx : Z) :
  mark_slots avail sel r0 = Ok r0' → idx ∈ sel →
  - Z.of_nat (length avail) ≤ idx < Z.of_nat (length avail).
Proof.
  revert r0. induction sel as [|i sel IH]; intros r0 H Hidx.
  - by apply elem_of_nil in Hidx.
  - cbn [mark_slots] in H. apply bind_Ok in H as (slot & Hslot & H).
    apply elem_of_cons in Hidx as [->|Hidx].
    + by eapply list_index_Ok.
    + by eapply IH.
Qed.

Lemma mark_slots_error (avail : list (Z * pykey)) (sel : list Z) (r0 : row)
    (e : exn) :
  mark_slots avail sel r0 = Raise e → e = IndexError.
Proof.
  revert r0. induction sel as [|i sel IH]; intros r0; [done|].
  cbn [mark_slots]. destruct (list_index avail i) as [slot|e'] eqn:Hi; cbn.
  - apply IH.
  - intros [= <-]. by eapply list_index_error.
Qed.

(** X4.  An accepted selection with an index that is not smaller than the
    number of open slots ends the function in [IndexError], with all files
    as they were. *)
Theorem patient_select_slots_index_error
    (isdigit : pystr → bool) (int : pystr → option Z)
    (repr_list : list pystr → pystr)
    (patient_username mhwp_username schedule_file appointments_file : pystr)
    (w w1 : world) (c : chosen_date) (rest : list pystr) (sel : list Z)
    (idx : Z) :
  file_exists schedule_file w = true →
  choose_date mhwp_username schedule_file w = (w1, inr c) →
  selection_loop isdigit int (available_slots c) (stdin w1) = (rest, Ok sel) →
  idx ∈ sel →
  Z.of_nat (length (available_slots c)) ≤ idx →
  patient_select_slots isdigit int repr_list patient_username mhwp_username
    schedule_file appointments_file w
  = (World (files w) rest, Error IndexError).
Proof.
  intros Hex Hchoose Hloop Hidx Hlen.
  pose proof (choose_date_files mhwp_username schedule_file w) as Hfiles.
  unfold patient_select_slots. rewrite Hex, Hchoose, Hloop.
  rewrite Hchoose in Hfiles. simpl in Hfiles. rewrite Hfiles.
  unfold book. destruct (all_schedules c !! first_pos c) as [r0|]; [|done].
  destruct (mark_slots (available_slots c) sel r0) as [r0'|e] eqn:Hmark.
  - pose proof (mark_slots_Ok _ _ _ _ idx Hmark Hidx). lia.
  - by apply mark_slots_error in Hmark as ->.
Qed.

Lemma patient_select_slots_index_error_witness :
  patient_select_slots ascii_isdigit ascii_int ascii_repr_list (lit "alice")
    (lit "drsmith") schedule_csv appointments_csv middle_open_world
  = (World (files middle_open_world) [], Error IndexError).
Proof.
  eapply (patient_select_slots_index_error ascii_isdigit ascii_int
            ascii_repr_list (lit "alice") (lit "drsmith") schedule_csv
            appointments_csv middle_open_world _ _ [] [1] 1).
  - by vm_compute.
  - vm_compute. reflexivity.
  - by vm_compute.
  - left.
  - by vm_compute.
Defined.

(** A strictly increasing list of integers from [lo] on, all below [lo]
    plus its length, counts up from [lo]. *)
Lemma sorted_bounded_lookup (l : list Z) (lo : Z) (i : nat) (x : Z) :
  StronglySorted Z.lt l →
  Forall (fun y => lo ≤ y < lo + Z.of_nat (length l)) l →
  l !! i = Some x → x = lo + Z.of_nat i.
Proof.
  intros Hsort. revert lo i x.
  induction Hsort as [|y l _ IH Hy]; intros lo i x Hb Hi; [done|].
  apply Forall_cons in Hb as [Hy0 Hb]. cbn [length] in *.
  assert (Hl : Forall (fun z => lo + 1 ≤ z < lo + 1 + Z.of_nat (length l)) l).
  { apply Forall_forall. intros z Hz.
    pose proof (proj1 (Forall_forall _ _) Hy z Hz).
    pose proof (proj1 (Forall_forall _ _) Hb z Hz). simpl in *. lia. }
  destruct i as [|i]; simpl in Hi.
  - injection Hi as <-. destruct l as [|z l].
    + simpl in Hy0. lia.
    + pose proof (IH (lo + 1) 0%nat z Hl eq_refl).
      apply Forall_cons in Hy as [Hyz _]. lia.
  - rewrite (IH (lo + 1) i x Hl Hi). lia.
Qed.

(** X5.  When the open slots are the leading slot columns, an open index is
    resolved to its own slot: [available_slots[idx]] is the pair of [idx]
    and of the slot column at position [idx]. *)
Theorem leading_open_slots_resolve (r : row) (others : list row)
    (avail : list (Z * pykey)) (idx : Z) :
  (∀ k, k ∈ slot_columns r → ∃ s, dict_get k r = Some (VStr s)) →
  extract_available_slots (r :: others) = Ok avail →
  Forall (fun i => i < Z.of_nat (length avail)) avail.*1 →
  idx ∈ avail.*1 →
  ∃ k, list_index avail idx = Ok (idx, k)
       ∧ slot_columns r !! Z.to_nat idx = Some k
       ∧ open_cell r k.
Proof.
  intros Hstr Hx Hlead Hidx.
  destruct (scan_slots_exact r (slot_columns r) 0 Hstr)
    as (l & Hl & Hmem & Hsort & Hge).
  cbn [extract_available_slots] in Hx. rewrite Hl in Hx. injection Hx as ->.
  assert (Hb : Forall (fun y => 0 ≤ y < 0 + Z.of_nat (length avail.*1))
                      avail.*1).
  { rewrite length_fmap. apply Forall_forall. intros y Hy.
    pose proof (proj1 (Forall_forall _ _) Hge y Hy).
    pose proof (proj1 (Forall_forall _ _) Hlead y Hy). simpl in *. lia. }
  apply list_elem_of_lookup in Hidx as [i Hi].
  pose proof (sorted_bounded_lookup _ 0 i idx Hsort Hb Hi) as ->.
  rewrite list_lookup_fmap in Hi.
  destruct (avail !! i) as [[j k]|] eqn:Hik; [|done].
  injection Hi as ->. exists k.
  pose proof (lookup_lt_Some _ _ _ Hik) as Hlt.
  assert ((0 + Z.of_nat i, k) ∈ avail) as Hin
    by by eapply list_elem_of_lookup_2.
  apply Hmem in Hin as (_ & Hcol & Hopen). rewrite Z.sub_0_r in Hcol.
  split; [|done].
  unfold list_index.
  rewrite (proj2 (Z.ltb_ge _ _)) by lia.
  rewrite (proj2 (Z.leb_le _ _)) by lia.
  rewrite (proj2 (Z.ltb_lt _ _)) by lia. cbn [andb].
  replace (Z.to_nat (0 + Z.of_nat i)) with i by lia. by rewrite Hik.
Qed.

Lemma leading_open_slots_resolve_witness :
  let r := mk_row day_header (scenario_record (lit "Friday") OPEN OPEN BOOKED) in
  ∃ k, list_index [(0, Some (lit "09:00")); (1, Some (lit "10:00"))] 1
       = Ok (1, k)
       ∧ slot_columns r !! Z.to_nat 1 = Some k
       ∧ open_cell r k.
Proof.
  intros r.
  apply (leading_open_slots_resolve r []
           [(0, Some (lit "09:00")); (1, Some (lit "10:00"))] 1).
  - intros k Hk. vm_compute in Hk.
    repeat (apply elem_of_cons in Hk as [->|Hk]; [by eexists|]).
    by apply elem_of_nil in Hk.
  - by vm_compute.
  - repeat constructor.
  - right. left.
Defined.

(** X6.  Marking never re-opens a slot: every field of the row keeps its value
    or has become the BOOKED marker, and no field is lost. *)
Theorem mark_slots_only_books (avail : list (Z * pykey)) (sel : list Z)
    (r0 r0' : row) (k : pykey) (v : pyval) :
  mark_slots avail sel r0 = Ok r0' →
  dict_get k r0 = Some v →
  dict_get k r0' = Some v ∨ dict_get k r0' = Some (VStr BOOKED).
Proof.
  revert r0 v. induction sel as [|idx sel IH]; intros r0 v H Hk.
  - injection H as <-. by left.
  - cbn [mark_slots] in H. apply bind_Ok in H as (slot & _ & H).
    destruct (decide (slot.2 = k)) as [Heq|Hne].
    + destruct (IH _ (VStr BOOKED) H) as [?|?]; [|by right..].
      rewrite dict_get_set. by rewrite decide_True.
    + eapply IH; [exact H|]. rewrite dict_get_set.
      by rewrite decide_False.
Qed.

Lemma mark_slots_only_books_witness :
  let r0 := mk_row day_header
              (scenario_record (lit "Friday") BOOKED OPEN OPEN) in
  ∃ r0', mark_slots [(1, Some (lit "10:00")); (2, Some (lit "11:00"))] [1] r0
         = Ok r0'
         ∧ (dict_get (Some (lit "10:00")) r0' = Some (VStr OPEN)
            ∨ dict_get (Some (lit "10:00")) r0' = Some (VStr BOOKED)).
Proof.
  intros r0. eexists. split; [by vm_compute|].
  eapply (mark_slots_only_books
            [(1, Some (lit "10:00")); (2, Some (lit "11:00"))] [1] r0);
    by vm_compute.
Defined.

(** ** Availability after a slot is marked *)

Lemma scan_slots_after_booking (r : row) (k : pykey) (cols : list pykey)
    (idx : Z) (found : list (Z * pykey)) :
  scan_slots r idx cols = Ok found →
  scan_slots (dict_set k (VStr BOOKED) r) idx cols
  = Ok (filter (fun ik => ik.2 ≠ k) found).
Proof.
  revert idx found. induction cols as [|c cols IH]; intros idx found H.
  - by injection H as <-.
  - cbn [scan_slots] in *. apply bind_Ok in H as (v & Hv & H).
    apply bind_Ok in H as (s & Hs & H).
    apply bind_Ok in H as (rest & Hrest & [= <-]).
    rewrite (IH _ _ Hrest). unfold getitem in *. rewrite dict_get_set.
    destruct (decide (k = c)) as [->|Hne]; cbn [mbind res_bind val_strip].
    + assert (bool_decide (strip BOOKED = OPEN) = false) as ->
        by (by vm_compute).
      case_bool_decide; [|done]. by rewrite filter_cons_False by naive_solver.
    + destruct (dict_get c r) as [v'|]; [|done]. injection Hv as <-.
      cbn [mbind res_bind]. rewrite Hs. cbn [mbind res_bind].
      case_bool_decide; [|done].
      by rewrite filter_cons_True by (simpl; congruence).
Qed.

(** X7.  Marking a field of the row BOOKED removes exactly that slot from the
    available ones and keeps the others with their indices. *)
Theorem extract_after_booking (r : row) (others : list row) (k : pykey)
    (avail : list (Z * pykey)) :
  k ∈ dict_keys r →
  extract_available_slots (r :: others) = Ok avail →
  extract_available_slots (dict_set k (VStr BOOKED) r :: others)
  = Ok (filter (fun ik => ik.2 ≠ k) avail).
Proof.
  intros Hk H. cbn [extract_available_slots] in *. unfold slot_columns.
  rewrite dict_keys_set, bool_decide_eq_true_2 by done.
  by apply scan_slots_after_booking.
Qed.

Lemma extract_after_booking_witness :
  let r := mk_row day_header
             (scenario_record (lit "Friday") OPEN OPEN BOOKED) in
  extract_available_slots [dict_set (Some (lit "09:00")) (VStr BOOKED) r]
  = Ok (filter (fun ik => ik.2 ≠ Some (lit "09:00"))
               [(0, Some (lit "09:00")); (1, Some (lit "10:00"))]).
Proof.
  intros r.
  apply (extract_after_booking r [] (Some (lit "09:00"))
           [(0, Some (lit "09:00")); (1, Some (lit "10:00"))]).
  - assert (H : bool_decide (Some (lit "09:00") ∈ dict_keys r) = true)
      by (by vm_compute).
    by apply bool_decide_eq_true in H.
  - by vm_compute.
Defined.

(** ** A record shorter than the header *)

Lemma foldl_set_str (hs fs : list pystr) (d : row) :
  NoDup hs → (∀ h, h ∈ hs → Some h ∉ dict_keys d) →
  foldl (fun d kv => dict_set (Some kv.1) (VStr kv.2) d) d (zip hs fs)
  = d ++ zip (Some <$> hs) (VStr <$> fs).
Proof.
  revert fs d. induction hs as [|h hs IH]; intros [|f0 fs] d Hnd Hfresh;
    simpl; rewrite ?app_nil_r; try done.
  apply NoDup_cons in Hnd as [Hh Hnd].
  rewrite IH; [|done|].
  - rewrite dict_set_fresh by (apply Hfresh; left).
    by rewrite <-app_assoc.
  - intros h' Hh'. rewrite dict_keys_set.
    case_bool_decide.
    + apply Hfresh. by right.
    + intros [?|[= ->]%list_elem_of_singleton]%elem_of_app; [|done].
      by eapply Hfresh; [right|].
Qed.

Lemma foldl_set_none (hs : list pystr) (d : row) :
  NoDup hs → (∀ h, h ∈ hs → Some h ∉ dict_keys d) →
  foldl (fun d h => dict_set (Some h) VNone d) d hs
  = d ++ ((fun h => (Some h, VNone)) <$> hs).
Proof.
  revert d. induction hs as [|h hs IH]; intros d Hnd Hfresh;
    simpl; rewrite ?app_nil_r; try done.
  apply NoDup_cons in Hnd as [Hh Hnd].
  rewrite IH; [|done|].
  - rewrite dict_set_fresh by (apply Hfresh; left).
    by rewrite <-app_assoc.
  - intros h' Hh'. rewrite dict_keys_set.
    case_bool_decide.
    + apply Hfresh. by right.
    + intros [?|[= ->]%list_elem_of_singleton]%elem_of_app; [|done].
      by eapply Hfresh; [right|].
Qed.

Lemma zip_pad_none (hs fs : list pystr) :
  (length fs ≤ length hs)%nat →
  zip (Some <$> hs) (VStr <$> fs)
  ++ ((fun h => (Some h, VNone)) <$> drop (length fs) hs)
  = zip (Some <$> hs)
        ((VStr <$> fs) ++ replicate (length hs - length fs) VNone).
Proof.
  revert fs. induction hs as [|h hs IH]; intros fs Hlen.
  - destruct fs; [done | simpl in Hlen; lia].
  - destruct fs as [|f0 fs]; simpl in *.
    + f_equal. specialize (IH []). simpl in IH.
      rewrite Nat.sub_0_r, zip_with_nil_r in IH. apply IH. lia.
    + f_equal. apply IH. lia.
Qed.

Lemma elem_of_drop_lookup {A} (l : list A) (n : nat) (x : A) :
  x ∈ drop n l ↔ ∃ i, l !! i = Some x ∧ (n ≤ i)%nat.
Proof.
  rewrite list_elem_of_lookup. split.
  - intros [j Hj]. rewrite lookup_drop in Hj. exists (n + j)%nat.
    split; [done | lia].
  - intros (i & Hi & Hn). exists (i - n)%nat. rewrite lookup_drop.
    by replace (n + (i - n))%nat with i by lia.
Qed.

(** The reader fills the fields a short record lacks with [None]. *)
Lemma mk_row_short (fieldnames fields : list pystr) :
  NoDup fieldnames → (length fields ≤ length fieldnames)%nat →
  mk_row fieldnames fields
  = zip (Some <$> fieldnames)
        ((VStr <$> fields)
         ++ replicate (length fieldnames - length fields) VNone).
Proof.
  intros Hnd Hlen. unfold mk_row.
  rewrite (proj2 (Nat.ltb_ge _ _)) by lia.
  rewrite foldl_set_str;
    [|done | intros h _; apply not_elem_of_nil]. cbn [app].
  rewrite foldl_set_none.
  - by apply zip_pad_none.
  - rewrite <-(take_drop (length fields) fieldnames) in Hnd.
    by apply NoDup_app in Hnd as (_ & _ & Hnd).
  - intros h Hh Hin.
    apply elem_of_drop_lookup in Hh as (i & Hi & Hge).
    apply list_elem_of_lookup in Hin as [i' Hi'].
    unfold dict_keys in Hi'. rewrite list_lookup_fmap in Hi'.
    destruct (zip _ _ !! i') as [[k v]|] eqn:Hz; [|done].
    injection Hi' as ->.
    apply lookup_zip_with_Some in Hz as (k' & v' & [= <- <-] & Hk & Hv).
    rewrite list_lookup_fmap in Hk. rewrite list_lookup_fmap in Hv.
    destruct (fieldnames !! i') as [h'|] eqn:Hh'; [|done].
    injection Hk as ->.
    destruct (fields !! i') as [f0|] eqn:Hf; [|done].
    apply lookup_lt_Some in Hf.
    pose proof (NoDup_lookup _ _ _ _ Hnd Hi Hh'). lia.
Qed.

Lemma scan_slots_attribute_error (r : row) (cols : list pykey) (idx : Z)
    (k : pykey) :
  (∀ c, c ∈ cols → is_Some (dict_get c r)) →
  k ∈ cols → dict_get k r = Some VNone →
  scan_slots r idx cols = Raise AttributeError.
Proof.
  revert idx. induction cols as [|c cols IH]; intros idx Hall Hk Hnone.
  - by apply elem_of_nil in Hk.
  - cbn [scan_slots]. unfold getitem.
    destruct (Hall c) as [v Hv]; [left|]. rewrite Hv. cbn [mbind res_bind].
    destruct v as [s| |l]; [|done..]. cbn [val_strip mbind res_bind].
    rewrite IH; [done | | | done].
    + intros c' Hc'. apply Hall. by right.
    + apply elem_of_cons in Hk as [->|Hk]; [congruence | done].
Qed.

(** X8.  A record of the chosen date with fewer fields than a header of more
    than three names stops [extract_available_slots] with
    [AttributeError]: its last slot cell is [None]. *)
Theorem extract_short_record (fieldnames fields : list pystr)
    (others : list row) :
  NoDup fieldnames →
  (3 < length fieldnames)%nat →
  (length fields < length fieldnames)%nat →
  extract_available_slots (mk_row fieldnames fields :: others)
  = Raise AttributeError.
Proof.
  intros Hnd H3 Hlen. rewrite mk_row_short by (done || lia).
  set (vals := (VStr <$> fields)
               ++ replicate (length fieldnames - length fields) VNone).
  assert (Hvals : length vals = length fieldnames).
  { unfold vals. rewrite length_app, length_fmap, length_replicate. lia. }
  pose proof (NoDup_fmap_2 Some _ Hnd) as HndK.
  cbn [extract_available_slots]. unfold slot_columns.
  rewrite dict_keys_zip by (by rewrite length_fmap).
  destruct (lookup_lt_is_Some_2 fieldnames (length fieldnames - 1))
    as [h Hh]; [lia|].
  apply (scan_slots_attribute_error _ _ _ (Some h)).
  - intros c Hc. apply elem_of_drop_lookup in Hc as (i & Hi & _).
    destruct (lookup_lt_is_Some_2 vals i) as [v Hv].
    { rewrite Hvals, <-(length_fmap Some). by eapply lookup_lt_Some. }
    exists v. by eapply dict_get_zip.
  - apply elem_of_drop_lookup. exists (length fieldnames - 1)%nat.
    split; [|lia]. by rewrite list_lookup_fmap, Hh.
  - eapply (dict_get_zip _ _ (length fieldnames - 1)); [done | |].
    + by rewrite list_lookup_fmap, Hh.
    + unfold vals. rewrite lookup_app_r by (rewrite length_fmap; lia).
      apply lookup_replicate_2. rewrite length_fmap. lia.
Qed.

Lemma extract_short_record_witness :
  extract_available_slots
    [mk_row day_header [lit "drsmith"; lit "2024/03/01"; lit "Friday"; OPEN]]
  = Raise AttributeError.
Proof.
  apply (extract_short_record day_header
           [lit "drsmith"; lit "2024/03/01"; lit "Friday"; OPEN] []).
  - assert (H : bool_decide (NoDup day_header) = true) by (by vm_compute).
    by apply bool_decide_eq_true in H.
  - cbn. lia.
  - cbn. lia.
Defined.

(** * Further properties of [load_mhwp_schedule] *)

(** The date and the time slot of a row, as a pair of optional values. *)
Lemma date_slot_fields (r : row) :
  (∃ v, dict_get (Some (lit "Date")) r = Some v ∧ hashable v = true) →
  (∃ v, dict_get (Some (lit "time_slot")) r = Some v ∧ hashable v = true) →
  ∃ d t, date_slot r = Ok (d, t)
         ∧ dict_get (Some (lit "Date")) r = Some d
         ∧ dict_get (Some (lit "time_slot")) r = Some t.
Proof.
  intros (d & Hd & Hhd) (t & Ht & Hht). exists d, t.
  unfold date_slot, field, getitem. rewrite Hd, Ht. cbn.
  by rewrite Hhd, Hht.
Qed.

Lemma booked_slots_of_exact (mhwp_username : pystr) (rows : list row) :
  Forall (fun r => (∃ v, dict_get (Some (lit "mhwp_username")) r = Some v)
                   ∧ (∃ v, dict_get (Some (lit "Date")) r = Some v
                           ∧ hashable v = true)
                   ∧ (∃ v, dict_get (Some (lit "time_slot")) r = Some v
                           ∧ hashable v = true)) rows →
  ∃ booked,
    booked_slots_of mhwp_username rows = Ok booked
    ∧ (fun dt => (Some dt.1, Some dt.2)) <$> booked
      = (fun a => (dict_get (Some (lit "Date")) a,
                   dict_get (Some (lit "time_slot")) a))
        <$> filter (fun a => row_of_mhwp mhwp_username a) rows.
Proof.
  induction 1 as [|r rows ([m Hm] & Hd & Ht) _ (booked & Hb & Heq)];
    [by exists []|].
  destruct (date_slot_fields r Hd Ht) as (d & t & Hds & Hgd & Hgt).
  cbn [booked_slots_of]. unfold field, getitem. rewrite Hm.
  cbn [mbind res_bind]. rewrite filter_cons.
  assert (row_of_mhwp mhwp_username r = eq_str m mhwp_username) as ->
    by (unfold row_of_mhwp; by rewrite Hm).
  destruct (eq_str m mhwp_username).
  - rewrite decide_True by done. rewrite Hds, Hb. cbn [mbind res_bind].
    exists ((d, t) :: booked). split; [done|].
    rewrite !fmap_cons, Heq. by rewrite Hgd, Hgt.
  - rewrite decide_False by (by intros ?). by exists booked.
Qed.

(** X9.  On tables that have the columns it reads, [load_mhwp_schedule]
    returns, in file order, exactly the rows of the schedule file, of
    whatever MHWP, whose date and time slot are not those of an
    appointment of the given MHWP. *)
Theorem load_mhwp_schedule_exact (mhwp_username schedule_file : pystr)
    (w : world) (hs : list pystr) (rs : list (list pystr))
    (ha : list pystr) (ra : list (list pystr)) :
  files w !! schedule_file = Some (hs :: rs) →
  files w !! appointments_csv = Some (ha :: ra) →
  lit "Date" ∈ hs → lit "time_slot" ∈ hs →
  lit "mhwp_username" ∈ ha → lit "Date" ∈ ha → lit "time_slot" ∈ ha →
  load_mhwp_schedule mhwp_username schedule_file w
  = Ok (filter
          (fun r =>
             (dict_get (Some (lit "Date")) r,
              dict_get (Some (lit "time_slot")) r)
             ∉ (fun a => (dict_get (Some (lit "Date")) a,
                          dict_get (Some (lit "time_slot")) a))
               <$> filter (fun a => row_of_mhwp mhwp_username a)
                     (dict_reader (ha :: ra)))
          (dict_reader (hs :: rs))).
Proof.
  intros Hs Ha HsD HsT HaM HaD HaT. unfold load_mhwp_schedule.
  rewrite Hs, Ha.
  destruct (booked_slots_of_exact mhwp_username (dict_reader (ha :: ra)))
    as (booked & -> & Heq).
  { pose proof (dict_reader_column _ _ ra HaM) as Fm.
    pose proof (dict_reader_column _ _ ra HaD) as Fd.
    pose proof (dict_reader_column _ _ ra HaT) as Ft.
    apply Forall_forall. intros r Hr.
    destruct (proj1 (Forall_forall _ _) Fm r Hr) as (m & Hm & _).
    split; [by exists m|].
    split; [exact (proj1 (Forall_forall _ _) Fd r Hr)
           | exact (proj1 (Forall_forall _ _) Ft r Hr)]. }
  cbn [mbind res_bind]. rewrite <-Heq.
  pose proof (dict_reader_column _ _ rs HsD) as Fd.
  pose proof (dict_reader_column _ _ rs HsT) as Ft.
  induction (dict_reader (hs :: rs)) as [|r rows IH]; [done|].
  apply Forall_cons in Fd as [Hd Fd]. apply Forall_cons in Ft as [Ht Ft].
  destruct (date_slot_fields r Hd Ht) as (d & t & Hds & Hgd & Hgt).
  cbn [rfilter]. rewrite Hds. cbn [mbind res_bind].
  rewrite (IH Fd Ft). cbn [mbind res_bind]. rewrite filter_cons, Hgd, Hgt.
  assert (Hiff : (d, t) ∈ booked
                 ↔ (Some d, Some t)
                   ∈ (fun dt : pyval * pyval => (Some dt.1, Some dt.2))
                     <$> booked).
  { rewrite list_elem_of_fmap. split.
    - intros Hin. by exists (d, t).
    - intros ([d' t'] & [= -> ->] & Hin). done. }
  case_bool_decide as Hnot.
  - rewrite decide_True; [done|]. by rewrite <-Hiff.
  - rewrite decide_False; [done|]. rewrite <-Hiff. by intros ?.
Qed.

Lemma load_mhwp_schedule_exact_witness :
  load_mhwp_schedule (lit "drsmith") schedule_csv slots_world
  = Ok (filter
          (fun r =>
             (dict_get (Some (lit "Date")) r,
              dict_get (Some (lit "time_slot")) r)
             ∉ (fun a => (dict_get (Some (lit "Date")) a,
                          dict_get (Some (lit "time_slot")) a))
               <$> filter (fun a => row_of_mhwp (lit "drsmith") a)
                     (dict_reader
                        [[lit "patient_username"; lit "mhwp_username";
                          lit "Date"; lit "time_slot"];
                         [lit "alice"; lit "drsmith"; lit "2024/03/01";
                          lit "09:00"]]))
          (dict_reader
             [[lit "mhwp_username"; lit "Date"; lit "time_slot"];
              [lit "drsmith"; lit "2024/03/01"; lit "09:00"];
              [lit "drsmith"; lit "2024/03/01"; lit "10:00"]])).
Proof.
  apply (load_mhwp_schedule_exact (lit "drsmith") schedule_csv slots_world);
    try (by vm_compute);
    match goal with
    | |- ?x ∈ ?l =>
        let H := fresh in
        assert (H : bool_decide (x ∈ l) = true) by (by vm_compute);
        by apply bool_decide_eq_true in H
    end.
Defined.

Lemma date_slot_reader_error (f : list (list pystr)) (r : row) (e : exn) :
  r ∈ dict_reader f → date_slot r = Raise e → e = KeyError.
Proof.
  intros Hr. unfold date_slot, field, getitem.
  destruct (dict_reader_field (lit "Date") f) as [Hd|Hd];
    pose proof (proj1 (Forall_forall _ _) Hd r Hr) as Hdr; simpl in Hdr.
  2: { rewrite Hdr. by intros [= <-]. }
  destruct Hdr as (d & -> & Hhd). cbn [mbind res_bind].
  destruct (dict_reader_field (lit "time_slot") f) as [Ht|Ht];
    pose proof (proj1 (Forall_forall _ _) Ht r Hr) as Htr; simpl in Htr.
  2: { rewrite Htr. by intros [= <-]. }
  destruct Htr as (t & -> & Hht). cbn [mbind res_bind].
  by rewrite Hhd, Hht.
Qed.

Lemma booked_slots_of_reader_error (mhwp_username : pystr)
    (f : list (list pystr)) (e : exn) :
  booked_slots_of mhwp_username (dict_reader f) = Raise e → e = KeyError.
Proof.
  assert (Hall : ∀ r, r ∈ dict_reader f → r ∈ dict_reader f) by done.
  revert Hall. generalize (dict_reader f) at 1 3. intros rows Hall.
  induction rows as [|r rows IH]; [done|].
  cbn [booked_slots_of]. unfold field at 1, getitem.
  destruct (dict_get (Some (lit "mhwp_username")) r) as [m|];
    [|by intros [= <-]].
  cbn [mbind res_bind].
  assert (Hrows : ∀ r', r' ∈ rows → r' ∈ dict_reader f)
    by (intros r' Hr'; apply Hall; by right).
  destruct (eq_str m mhwp_username); [|by apply IH].
  destruct (date_slot r) as [ds|e'] eqn:Hds; cbn [mbind res_bind].
  - destruct (booked_slots_of mhwp_username rows) as [rest|e'];
      cbn [mbind res_bind]; [done|]. intros [= <-]. by apply IH.
  - intros [= <-]. eapply date_slot_reader_error; [|done]. apply Hall. left.
Qed.

(** X10.  A schedule without a [time_slot] column, such as the one
    [patient_select_slots] works on, cannot be loaded: as soon as it has a
    row, [load_mhwp_schedule] raises [KeyError]. *)
Theorem load_mhwp_schedule_without_time_slot
    (mhwp_username schedule_file : pystr) (w : world) (hs : list pystr)
    (rs : list (list pystr)) :
  files w !! schedule_file = Some (hs :: rs) →
  lit "time_slot" ∉ hs →
  filter (fun r => r ≠ []) rs ≠ [] →
  load_mhwp_schedule mhwp_username schedule_file w = Raise KeyError.
Proof.
  intros Hs Hno Hrows. unfold load_mhwp_schedule. rewrite Hs.
  assert (Hb : ∀ b e,
    match files w !! appointments_csv with
    | Some appts => booked_slots_of mhwp_username (dict_reader appts)
    | None => Ok []
    end = b → b = Raise e → e = KeyError).
  { intros b e <-. destruct (files w !! appointments_csv); [|done].
    apply booked_slots_of_reader_error. }
  destruct (match files w !! appointments_csv with
            | Some appts => booked_slots_of mhwp_username (dict_reader appts)
            | None => Ok []
            end) as [booked|e].
  2: { by rewrite (Hb _ e eq_refl eq_refl). }
  cbn [mbind res_bind dict_reader].
  destruct (filter (fun r => r ≠ []) rs) as [|fields rest]; [done|].
  rewrite fmap_cons. cbn [rfilter].
  pose proof (mk_row_named (lit "time_slot") hs fields) as Hnone.
  rewrite bool_decide_eq_false_2 in Hnone by done.
  unfold date_slot, field, getitem. rewrite Hnone.
  by destruct (dict_get (Some (lit "Date")) (mk_row hs fields)).
Qed.

Lemma load_mhwp_schedule_without_time_slot_witness :
  load_mhwp_schedule (lit "drsmith") schedule_csv shifted_world
  = Raise KeyError.
Proof.
  eapply (load_mhwp_schedule_without_time_slot (lit "drsmith") schedule_csv
            shifted_world).
  - by vm_compute.
  - assert (H : bool_decide (lit "time_slot" ∉ day_header) = true)
      by (by vm_compute).
    by apply bool_decide_eq_true in H.
  - by vm_compute.
Defined.

(** * Properties of [save_appointments] *)

Lemma save_rows_app (repr_list : list pystr → pystr)
    (patient_username mhwp_username : pystr) (slots more : list row)
    (dss : list (pystr * pystr)) (written : list (list pystr)) :
  Forall2 slot_of slots dss →
  save_rows repr_list patient_username mhwp_username (slots ++ more) written
  = save_rows repr_list patient_username mhwp_username more
      (written
       ++ (appointment_record
           <$> appointments_for patient_username mhwp_username dss)).
Proof.
  intros H. revert written.
  induction H as [|slot ds slots dss [Hd Ht] _ IH]; intros written.
  - by rewrite app_nil_r.
  - cbn [app save_rows]. unfold field, getitem. rewrite Hd, Ht.
    cbn [mbind res_bind cell_text]. rewrite IH.
    unfold appointments_for. rewrite !fmap_cons, <-app_assoc. done.
Qed.

(** X11.  Saving slots into a ledger, or into an absent or empty file, which
    first gets the header, leaves the ledger extended by one appointment
    per slot, in order; read back, the file gives these appointments. *)
Theorem save_appointments_appends (repr_list : list pystr → pystr)
    (slots : list row) (dss : list (pystr * pystr))
    (patient_username mhwp_username appointments_file : pystr) (w : world)
    (ledger : list appointment) :
  Forall2 slot_of slots dss →
  files w !! appointments_file = Some (ledger_file ledger)
  ∨ ledger = [] ∧ default [] (files w !! appointments_file) = [] →
  save_appointments repr_list slots patient_username mhwp_username
    appointments_file w
  = (set_file appointments_file
       (ledger_file
          (ledger ++ appointments_for patient_username mhwp_username dss)) w,
     None)
  ∧ dict_reader
      (ledger_file
         (ledger ++ appointments_for patient_username mhwp_username dss))
    = appointment_row
      <$> (ledger ++ appointments_for patient_username mhwp_username dss).
Proof.
  intros Hslots Hfile. split; [|apply dict_reader_ledger_file].
  unfold save_appointments.
  assert ((if bool_decide (default [] (files w !! appointments_file) = [])
           then [key_text <$> ledger_fields]
           else default [] (files w !! appointments_file))
          = ledger_file ledger) as ->.
  { destruct Hfile as [-> | [-> ->]]; [|done].
    by rewrite bool_decide_eq_false_2. }
  rewrite <-(app_nil_r slots), (save_rows_app _ _ _ _ [] dss) by done.
  cbn [save_rows fst snd]. unfold ledger_file.
  by rewrite fmap_app.
Qed.

Lemma save_appointments_appends_witness :
  save_appointments ascii_repr_list [slot_0900] (lit "alice") (lit "drsmith")
    appointments_csv bob_world
  = (set_file appointments_csv
       (ledger_file
          ([bob_1000]
           ++ appointments_for (lit "alice") (lit "drsmith")
                [(lit "2024/03/01", lit "09:00")])) bob_world,
     None)
  ∧ dict_reader
      (ledger_file
         ([bob_1000]
          ++ appointments_for (lit "alice") (lit "drsmith")
               [(lit "2024/03/01", lit "09:00")]))
    = appointment_row
      <$> ([bob_1000]
           ++ appointments_for (lit "alice") (lit "drsmith")
                [(lit "2024/03/01", lit "09:00")]).
Proof.
  apply (save_appointments_appends ascii_repr_list [slot_0900]
           [(lit "2024/03/01", lit "09:00")] (lit "alice") (lit "drsmith")
           appointments_csv bob_world [bob_1000]).
  - repeat constructor.
  - left. by vm_compute.
Defined.

(** X12.  A slot without [Date] or [time_slot] stops the saving with [KeyError]:
    the header, if the file was empty, and the records of the slots before
    it are in the file, the slots after it are not. *)
Theorem save_appointments_bad_slot (repr_list : list pystr → pystr)
    (good : list row) (dss : list (pystr * pystr)) (bad : row)
    (rest : list row)
    (patient_username mhwp_username appointments_file : pystr) (w : world)
    (ledger : list appointment) :
  Forall2 slot_of good dss →
  dict_get (Some (lit "Date")) bad = None
  ∨ dict_get (Some (lit "time_slot")) bad = None →
  files w !! appointments_file = Some (ledger_file ledger)
  ∨ ledger = [] ∧ default [] (files w !! appointments_file) = [] →
  save_appointments repr_list (good ++ bad :: rest) patient_username
    mhwp_username appointments_file w
  = (set_file appointments_file
       (ledger_file
          (ledger ++ appointments_for patient_username mhwp_username dss)) w,
     Some KeyError).
Proof.
  intros Hgood Hbad Hfile. unfold save_appointments.
  assert ((if bool_decide (default [] (files w !! appointments_file) = [])
           then [key_text <$> ledger_fields]
           else default [] (files w !! appointments_file))
          = ledger_file ledger) as ->.
  { destruct Hfile as [-> | [-> ->]]; [|done].
    by rewrite bool_decide_eq_false_2. }
  rewrite (save_rows_app _ _ _ _ _ dss) by done.
  cbn [save_rows]. unfold field, getitem.
  assert ((match dict_get (Some (lit "Date")) bad with
           | Some v => Ok v
           | None => Raise KeyError
           end ≫= fun d =>
           match dict_get (Some (lit "time_slot")) bad with
           | Some v => Ok v
           | None => Raise KeyError
           end ≫= fun t => Ok (d, t)) = Raise KeyError) as ->.
  { destruct Hbad as [-> | ->]; [done|].
    by destruct (dict_get (Some (lit "Date")) bad). }
  cbn [fst snd]. unfold ledger_file. by rewrite fmap_app.
Qed.

Lemma save_appointments_bad_slot_witness :
  save_appointments ascii_repr_list
    ([slot_0900] ++ [(Some (lit "Date"), VStr (lit "2024/03/02"))] :: [])
    (lit "alice") (lit "drsmith") appointments_csv bob_world
  = (set_file appointments_csv
       (ledger_file
          ([bob_1000]
           ++ appointments_for (lit "alice") (lit "drsmith")
                [(lit "2024/03/01", lit "09:00")])) bob_world,
     Some KeyError).
Proof.
  apply (save_appointments_bad_slot ascii_repr_list [slot_0900]
           [(lit "2024/03/01", lit "09:00")]
           [(Some (lit "Date"), VStr (lit "2024/03/02"))] []
           (lit "alice") (lit "drsmith") appointments_csv bob_world
           [bob_1000]).
  - repeat constructor.
  - right. by vm_compute.
  - left. by vm_compute.
Defined.

(** * Further properties of the cancellation *)

(** The cancellation on a ledger under the header it writes. *)
Lemma cancel_appointment_on_ledger (repr_list : list pystr → pystr)
    (username : pystr) (w : world) (ledger : list appointment)
    (line1 line2 : pystr) (rest : list pystr) :
  files w !! appointments_csv = Some (ledger_file ledger) →
  stdin w = line1 :: line2 :: rest →
  cancel_appointment repr_list username w
  = if existsb (cancels username (strip line1) (strip line2)) ledger
    then (World (<[appointments_csv :=
                     ledger_file
                       (filter (fun a => negb (cancels username (strip line1)
                                                 (strip line2) a)) ledger)]>
                   (files w)) rest,
          CancelledSuccessfully)
    else (World (files w) rest, NoMatchingAppointment).
Proof.
  intros Hfile Hin. unfold cancel_appointment, input. rewrite Hin.
  cbn [files stdin].
  rewrite Hfile, dict_reader_ledger_file, rfilter_not_cancelled.
  rewrite !length_fmap, filter_not_cancelled_length.
  destruct (existsb _ ledger); [|done].
  unfold write_table. by rewrite writerows_ledger.
Qed.

Lemma filter_not_cancelled_none (hit : appointment → bool)
    (l : list appointment) :
  existsb hit l = false → filter (fun a => negb (hit a)) l = l.
Proof.
  induction l as [|a l IH]; [done|]. cbn [existsb].
  intros [Ha Hl]%orb_false_iff.
  rewrite filter_cons_True by (by rewrite Ha). by rewrite IH.
Qed.

Lemma existsb_filter_not (hit : appointment → bool) (l : list appointment) :
  existsb hit (filter (fun a => negb (hit a)) l) = false.
Proof.
  induction l as [|a l IH]; [done|]. rewrite filter_cons.
  destruct (hit a) eqn:Ha; cbn [negb].
  - by rewrite decide_False by (by intros ?).
  - rewrite decide_True by done. cbn [existsb]. by rewrite Ha, IH.
Qed.

(** X13.  Saving an appointment and cancelling it gives the ledger back: when
    the ledger held no appointment of that patient, date and slot, and the
    date and the slot are typed as they were saved, the cancellation
    succeeds and every file is as it was before the saving. *)
Theorem save_then_cancel (repr_list : list pystr → pystr) (slot : row)
    (date time_slot patient_username mhwp_username : pystr) (w : world)
    (ledger : list appointment) (rest : list pystr) :
  slot_of slot (date, time_slot) →
  strip date = date → strip time_slot = time_slot →
  files w !! appointments_csv = Some (ledger_file ledger) →
  existsb (cancels patient_username date time_slot) ledger = false →
  stdin w = date :: time_slot :: rest →
  cancel_appointment repr_list patient_username
    (save_appointments repr_list [slot] patient_username mhwp_username
       appointments_csv w).1
  = (World (files w) rest, CancelledSuccessfully).
Proof.
  intros Hslot Hd Ht Hfile Hfresh Hin. unfold save_appointments.
  rewrite Hfile. cbn [default].
  rewrite bool_decide_eq_false_2 by done.
  destruct Hslot as [HsD HsT]. cbn [fst snd] in HsD, HsT.
  cbn [save_rows]. unfold field, getitem. rewrite HsD, HsT.
  cbn [mbind res_bind cell_text fst snd].
  assert (Hfile' :
    ledger_file ledger
    ++ [[patient_username; mhwp_username; date; time_slot]]
    = ledger_file
        (ledger ++ [Appointment patient_username mhwp_username date
                      time_slot])).
  { unfold ledger_file. by rewrite fmap_app. }
  cbn [fst snd] in *. unfold id. rewrite Hfile'.
  rewrite (cancel_appointment_on_ledger repr_list patient_username _
             (ledger ++ [Appointment patient_username mhwp_username date
                           time_slot]) date time_slot rest);
    [| unfold set_file; cbn [files]; by rewrite lookup_insert_eq
     | done].
  rewrite Hd, Ht, existsb_app. rewrite Hfresh. cbn [existsb orb].
  assert (cancels patient_username date time_slot
            (Appointment patient_username mhwp_username date time_slot)
          = true) as Hhit.
  { unfold cancels. cbn. by rewrite !bool_decide_eq_true_2. }
  rewrite Hhit. cbn [orb]. rewrite filter_app, filter_cons_False
    by (rewrite Hhit; by intros ?).
  rewrite filter_nil, app_nil_r, filter_not_cancelled_none by done.
  unfold set_file. cbn [files stdin].
  rewrite insert_insert_eq. by rewrite insert_id.
Qed.

Lemma save_then_cancel_witness :
  cancel_appointment ascii_repr_list (lit "alice")
    (save_appointments ascii_repr_list [slot_0900] (lit "alice")
       (lit "drsmith") appointments_csv bob_world).1
  = (World (files bob_world) [], CancelledSuccessfully).
Proof.
  apply (save_then_cancel ascii_repr_list slot_0900 (lit "2024/03/01")
           (lit "09:00") (lit "alice") (lit "drsmith") bob_world [bob_1000]
           []); by vm_compute.
Defined.

(** X14.  Cancelling again, with the same date and slot typed, finds nothing
    and leaves the ledger as the first cancellation wrote it. *)
Theorem cancel_appointment_twice (repr_list : list pystr → pystr)
    (username : pystr) (w : world) (ledger : list appointment)
    (line1 line2 : pystr) (rest : list pystr) :
  files w !! appointments_csv = Some (ledger_file ledger) →
  stdin w = line1 :: line2 :: line1 :: line2 :: rest →
  existsb (cancels username (strip line1) (strip line2)) ledger = true →
  cancel_appointment repr_list username
    (cancel_appointment repr_list username w).1
  = (World (files (cancel_appointment repr_list username w).1) rest,
     NoMatchingAppointment).
Proof.
  intros Hfile Hin Hhit.
  rewrite (cancel_appointment_on_ledger repr_list username w ledger line1
             line2 (line1 :: line2 :: rest) Hfile Hin).
  rewrite Hhit. cbn [fst].
  rewrite (cancel_appointment_on_ledger repr_list username _
             (filter (fun a => negb (cancels username (strip line1)
                                       (strip line2) a)) ledger)
             line1 line2 rest);
    [| cbn [files]; by rewrite lookup_insert_eq | done].
  by rewrite existsb_filter_not.
Qed.

Lemma cancel_appointment_twice_witness :
  let w := World (files twice_booked_world)
             [lit "2024/03/01"; lit "09:00"; lit "2024/03/01"; lit "09:00"] in
  cancel_appointment ascii_repr_list (lit "alice")
    (cancel_appointment ascii_repr_list (lit "alice") w).1
  = (World (files (cancel_appointment ascii_repr_list (lit "alice") w).1) [],
     NoMatchingAppointment).
Proof.
  intros w.
  apply (cancel_appointment_twice ascii_repr_list (lit "alice") w
           [alice_0900; bob_1000; alice_0900] (lit "2024/03/01")
           (lit "09:00") []); by vm_compute.
Defined.

(** X15.  A ledger without a [patient_username] column, such as the header-less
    file [patient_select_slots] creates, cannot be cancelled from: with no
    record after the first line nothing matches, with any record the
    cancellation crashes with [KeyError]; the file stays as it is. *)
Theorem cancel_appointment_without_patient_column
    (repr_list : list pystr → pystr) (username : pystr) (w : world)
    (hs : list pystr) (rs : list (list pystr)) (line1 line2 : pystr)
    (rest : list pystr) :
  files w !! appointments_csv = Some (hs :: rs) →
  lit "patient_username" ∉ hs →
  stdin w = line1 :: line2 :: rest →
  cancel_appointment repr_list username w
  = (World (files w) rest,
     if bool_decide (filter (fun r => r ≠ []) rs = [])
     then NoMatchingAppointment else Uncaught KeyError).
Proof.
  intros Hfile Hno Hin. unfold cancel_appointment, input. rewrite Hin.
  cbn [files stdin]. rewrite Hfile. cbn [dict_reader].
  destruct (filter (fun r => r ≠ []) rs) as [|fields more].
  - by rewrite bool_decide_eq_true_2.
  - rewrite bool_decide_eq_false_2 by done. rewrite fmap_cons.
    cbn [rfilter]. unfold is_cancelled, field, getitem.
    pose proof (mk_row_named (lit "patient_username") hs fields) as Hnone.
    rewrite bool_decide_eq_false_2 in Hnone by done. by rewrite Hnone.
Qed.

Lemma cancel_appointment_without_patient_column_witness :
  cancel_appointment ascii_repr_list (lit "alice") booked_ledger_world
  = (World (files booked_ledger_world) [],
     if bool_decide
          (filter (fun r => r ≠ [])
             [[lit "alice"; lit "drsmith"; lit "2024/03/01"; lit "10:00"]]
           = [])
     then NoMatchingAppointment else Uncaught KeyError).
Proof.
  apply (cancel_appointment_without_patient_column ascii_repr_list
           (lit "alice") booked_ledger_world
           [lit "alice"; lit "drsmith"; lit "2024/03/01"; lit "09:00"]
           [[lit "alice"; lit "drsmith"; lit "2024/03/01"; lit "10:00"]]
           (lit "2024/03/01") (lit "09:00") []).
  - by vm_compute.
  - assert (H : bool_decide
                  (lit "patient_username"
                   ∉ [lit "alice"; lit "drsmith"; lit "2024/03/01";
                      lit "09:00"]) = true) by (by vm_compute).
    by apply bool_decide_eq_true in H.
  - reflexivity.
Defined.

(** X16.  Unless the cancellation is reported as successful or its writer
    raised [ValueError], no file has changed. *)
Theorem cancel_appointment_all_or_nothing (repr_list : list pystr → pystr)
    (username : pystr) (w : world) :
  (cancel_appointment repr_list username w).2 ≠ CancelledSuccessfully →
  (cancel_appointment repr_list username w).2 ≠ Uncaught ValueError →
  files (cancel_appointment repr_list username w).1 = files w.
Proof.
  unfold cancel_appointment, input.
  destruct (stdin w) as [|line1 [|line2 rest]]; [done..|]. cbn [files stdin].
  destruct (files w !! appointments_csv) as [f|]; [|done].
  destruct (rfilter _ (dict_reader f)) as [updated|e]; [|done].
  destruct (_ <? _)%nat; [|done].
  destruct (write_table _ _ _) as [written [e|]] eqn:Hw; cbn.
  - apply writerows_error in Hw as ->. by intros _ [].
  - by intros [].
Qed.

Lemma cancel_appointment_all_or_nothing_witness :
  files (cancel_appointment ascii_repr_list (lit "alice")
           booked_ledger_world).1
  = files booked_ledger_world.
Proof.
  apply (cancel_appointment_all_or_nothing ascii_repr_list (lit "alice")
           booked_ledger_world); by vm_compute.
Defined.

(** * Properties of the appointment menu *)

(** The value [get_assigned_mhwp] returns, as in C8. *)
Lemma get_assigned_mhwp_value (patient_username assignments_file : pystr)
    (w : world) :
  get_assigned_mhwp patient_username assignments_file w
  = (w, match files w !! assignments_file with
        | None => VNone
        | Some f =>
            match list_find (fun r => assigned_to patient_username r)
                            (dict_reader f) with
            | Some (_, r) =>
                default VNone (dict_get (Some (lit "mhwp_username")) r)
            | None => VNone
            end
        end).
Proof.
  unfold get_assigned_mhwp.
  destruct (files w !! assignments_file) as [f|]; [|done].
  destruct (dict_reader_field (lit "patient_username") f) as [Hall|Hnone].
  - rewrite <-find_assignment_first.
    + by destruct (find_assignment _ _).
    + eapply Forall_impl; [exact Hall|]. intros r (v & -> & _). eauto.
  - destruct (find_assignment_no_column patient_username _ Hnone) as [H1 H2].
    rewrite H2, <-H1. by destruct (find_assignment _ _).
Qed.

(** X17.  A patient for whom the assignments file is absent or has no row gets
    no booking from the menu: the choice is the only line read, the
    schedule is not even opened and no file changes. *)
Theorem appointment_menu_unassigned (isdigit : pystr → bool)
    (int : pystr → option Z) (repr_list : list pystr → pystr)
    (username : pystr) (w : world) (line : pystr) (rest : list pystr) :
  stdin w = line :: rest →
  strip line = lit "1" →
  match files w !! assignments_csv with
  | None => True
  | Some f =>
      list_find (fun r => assigned_to username r) (dict_reader f) = None
  end →
  appointment_menu isdigit int repr_list username w
  = (World (files w) rest, NoMhwpAssigned).
Proof.
  intros Hin Hline Hnone. unfold appointment_menu, input. rewrite Hin.
  rewrite Hline, bool_decide_eq_true_2 by done.
  rewrite get_assigned_mhwp_value. cbn [files].
  destruct (files w !! assignments_csv) as [f|]; [|done].
  by rewrite Hnone.
Qed.

Lemma appointment_menu_unassigned_witness :
  appointment_menu ascii_isdigit ascii_int ascii_repr_list (lit "alice")
    unassigned_world
  = (World (files unassigned_world) [lit "2024/03/01"; lit "0"],
     NoMhwpAssigned).
Proof.
  apply (appointment_menu_unassigned ascii_isdigit ascii_int ascii_repr_list
           (lit "alice") unassigned_world (lit "1")
           [lit "2024/03/01"; lit "0"]); by vm_compute.
Defined.

(** * A successful booking on a rectangular schedule *)

Lemma scan_slots_keys (r : row) (cols : list pykey) (idx : Z)
    (found : list (Z * pykey)) (ik : Z * pykey) :
  scan_slots r idx cols = Ok found → ik ∈ found → ik.2 ∈ cols.
Proof.
  revert idx found. induction cols as [|c cols IH]; intros idx found H Hin.
  - injection H as <-. by apply elem_of_nil in Hin.
  - cbn [scan_slots] in H. apply bind_Ok in H as (v & _ & H).
    apply bind_Ok in H as (s & _ & H).
    apply bind_Ok in H as (rest & Hrest & [= <-]).
    case_bool_decide.
    + apply elem_of_cons in Hin as [->|Hin]; [left|].
      right. by eapply IH.
    + right. by eapply IH.
Qed.

Lemma list_index_elem {A} (l : list A) (i : Z) (a : A) :
  list_index l i = Ok a → a ∈ l.
Proof.
  unfold list_index. destruct (_ && _); [|done].
  destruct (l !! _) as [a'|] eqn:Ha; [|done]. intros [= <-].
  by eapply list_elem_of_lookup_2.
Qed.

(** Marking a row of a rectangular table leaves a row of that table. *)
Lemma mark_slots_zip (keys : list pykey) (avail : list (Z * pykey))
    (sel : list Z) (rec : list pystr) (r' : row) :
  NoDup keys → (∀ ik, ik ∈ avail → ik.2 ∈ keys) →
  length rec = length keys →
  mark_slots avail sel (zip keys (VStr <$> rec)) = Ok r' →
  ∃ rec', r' = zip keys (VStr <$> rec') ∧ length rec' = length rec.
Proof.
  intros Hnd Hkeys. revert rec.
  induction sel as [|idx sel IH]; intros rec Hlen H.
  - injection H as <-. by exists rec.
  - cbn [mark_slots] in H. apply bind_Ok in H as (slot & Hslot & H).
    apply list_index_elem, Hkeys, list_elem_of_lookup in Hslot as [i Hi].
    rewrite (dict_set_zip _ _ i) in H;
      [|done..|rewrite length_fmap, Hlen; by eapply lookup_lt_Some].
    rewrite <-list_fmap_insert in H.
    destruct (IH (<[i:=BOOKED]> rec)) as (rec' & -> & Hlen');
      [by rewrite length_insert | done |].
    exists rec'. split; [done|]. by rewrite Hlen', length_insert.
Qed.

Lemma append_appointments_records
    (patient_username mhwp_username date : pystr)
    (avail : list (Z * pykey)) (sel : list Z) (written out : list (list pystr)) :
  append_appointments patient_username mhwp_username date avail sel written
  = (out, None) →
  ∃ slots,
    Forall2 (fun idx slot => list_index avail idx = Ok slot) sel slots
    ∧ out = written
            ++ ((fun slot : Z * pykey =>
                   [patient_username; mhwp_username; date; key_text slot.2])
                <$> slots).
Proof.
  revert written. induction sel as [|idx sel IH]; intros written H.
  - injection H as <-. exists []. split; [constructor|].
    by rewrite app_nil_r.
  - cbn [append_appointments] in H.
    destruct (list_index avail idx) as [slot|e] eqn:Hslot; [|done].
    destruct (IH _ H) as (slots & Hall & ->).
    exists (slot :: slots). split; [by constructor|].
    by rewrite fmap_cons, <-app_assoc.
Qed.

(** X18.  On a rectangular schedule, a booking reported as successful has
    written the schedule so that reading it back gives the rows of the
    MHWP with the first row of the chosen date as the marking loop left
    it, and has appended to the appointments file one record per selected
    index, in order, each naming the slot that index resolved to. *)
Theorem patient_select_slots_success
    (isdigit : pystr → bool) (int : pystr → option Z)
    (repr_list : list pystr → pystr)
    (patient_username mhwp_username schedule_file appointments_file : pystr)
    (w w1 w' : world) (c : chosen_date) (hs : list pystr)
    (rs : list (list pystr)) (rest : list pystr) (sel : list Z) :
  schedule_file ≠ appointments_file →
  files w !! schedule_file = Some (hs :: rs) →
  rectangular (hs :: rs) →
  choose_date mhwp_username schedule_file w = (w1, inr c) →
  selection_loop isdigit int (available_slots c) (stdin w1) = (rest, Ok sel) →
  patient_select_slots isdigit int repr_list patient_username mhwp_username
    schedule_file appointments_file w = (w', BookedSuccessfully) →
  ∃ r0 r0' slots,
    all_schedules c !! first_pos c = Some r0
    ∧ mark_slots (available_slots c) sel r0 = Ok r0'
    ∧ Forall2 (fun idx slot => list_index (available_slots c) idx = Ok slot)
              sel slots
    ∧ dict_reader <$> files w' !! schedule_file
      = Some (<[first_pos c := r0']> (all_schedules c))
    ∧ files w' !! appointments_file
      = Some (default [] (files w !! appointments_file)
              ++ ((fun slot : Z * pykey =>
                     [patient_username; mhwp_username; selected_date c;
                      key_text slot.2]) <$> slots))
    ∧ stdin w' = rest.
Proof.
  intros Hpaths Hfile Hrect Hchoose Hloop Hrun.
  unfold patient_select_slots in Hrun.
  assert (file_exists schedule_file w = true) as Hex.
  { unfold file_exists. apply bool_decide_eq_true_2. rewrite Hfile. eauto. }
  rewrite Hex, Hchoose, Hloop in Hrun.
  apply choose_date_inr in Hchoose
    as (f & line0 & hits & Hf & _ & Hfiles & Hall & Hne & _ & Hhits & Hj
        & Hx & _).
  rewrite Hfile in Hf. injection Hf as <-.
  rewrite dict_reader_rect in Hall by done.
  apply rfilter_mhwp_rect in Hall; [|done].
  pose proof (first_true_select_rows hits (all_schedules c)
                (rmap_length _ _ _ Hhits)) as Hpos.
  rewrite Hj in Hpos. destruct Hpos as (r0 & Hr0 & Hhead).
  destruct Hrect as (Hhs & Hnd & Hlen).
  pose proof (NoDup_fmap_2 Some _ Hnd) as HndK.
  set (recsM := filter (fun rec => row_of_mhwp mhwp_username (mk_row hs rec))
                       rs) in *.
  assert (HlenM : Forall (fun r => length r = length hs) recsM).
  { apply Forall_forall. intros rec [_ Hrec]%list_elem_of_filter.
    exact (proj1 (Forall_forall _ _) Hlen rec Hrec). }
  rewrite Hall, list_lookup_fmap in Hr0.
  destruct (recsM !! first_pos c) as [rec0|] eqn:Hrec0; [|done].
  injection Hr0 as <-.
  assert (Hl0 : length rec0 = length hs).
  { apply (proj1 (Forall_forall _ _) HlenM). by eapply list_elem_of_lookup_2. }
  assert (Havail : ∀ ik, ik ∈ available_slots c → ik.2 ∈ Some <$> hs).
  { intros ik Hik.
    destruct (select_rows hits (all_schedules c)) as [|d ds]; [done|].
    injection Hhead as ->. cbn [extract_available_slots] in Hx.
    pose proof (scan_slots_keys _ _ _ _ ik Hx Hik) as Hk.
    unfold slot_columns in Hk. rewrite mk_row_rect in Hk by done.
    rewrite dict_keys_zip in Hk by (by rewrite !length_fmap).
    apply elem_of_drop_lookup in Hk as (i & Hi & _).
    by eapply list_elem_of_lookup_2. }
  unfold book in Hrun. rewrite Hall, list_lookup_fmap, Hrec0 in Hrun.
  cbn [fmap option_fmap option_map] in Hrun.
  destruct (mark_slots (available_slots c) sel (mk_row hs rec0))
    as [r0'|e] eqn:Hmark; [|by injection Hrun].
  pose proof Hmark as Hmark'. rewrite mk_row_rect in Hmark' by done.
  apply mark_slots_zip in Hmark' as (rec' & -> & Hl');
    [|done | done | by rewrite length_fmap].
  rewrite dict_keys_zip in Hrun by (by rewrite !length_fmap, Hl').
  unfold write_table in Hrun.
  match type of Hrun with
  | context [writerows _ _ ?rows _] =>
      assert (Hrows : rows = mk_row hs <$> <[first_pos c := rec']> recsM)
  end.
  { rewrite list_fmap_insert. f_equal.
    by rewrite mk_row_rect by (done || lia). }
  assert (HlenM' : Forall (fun r => length r = length hs)
                          (<[first_pos c := rec']> recsM)).
  { apply Forall_insert; [done | lia]. }
  rewrite Hrows, writerows_rect in Hrun by done.
  destruct (append_appointments _ _ _ _ _ _) as [ledger [e|]] eqn:Happ;
    [by injection Hrun|].
  apply append_appointments_records in Happ as (slots & Hslots & ->).
  injection Hrun as <-.
  exists (mk_row hs rec0), (zip (Some <$> hs) (VStr <$> rec')), slots.
  unfold set_file. cbn [files stdin].
  split; [by rewrite Hall, list_lookup_fmap, Hrec0|].
  split; [done|]. split; [done|]. split; [|split; [|done]].
  - rewrite lookup_insert_ne, lookup_insert_eq by done.
    cbn [fmap option_fmap option_map app]. f_equal.
    assert (key_text <$> (Some <$> hs) = hs) as ->.
    { rewrite <-list_fmap_compose. apply list_fmap_id. }
    rewrite dict_reader_rect;
      [rewrite Hall, list_fmap_insert; do 2 f_equal;
       by rewrite mk_row_rect by (done || lia)|].
    by repeat split.
  - rewrite lookup_insert_eq, lookup_insert_ne by done.
    by rewrite Hfiles.
Qed.

Lemma patient_select_slots_success_witness :
  ∃ (c : chosen_date) (w' : world) (r0 r0' : row) (slots : list (Z * pykey)),
    all_schedules c !! first_pos c = Some r0
    ∧ mark_slots (available_slots c) [1] r0 = Ok r0'
    ∧ Forall2 (fun idx slot => list_index (available_slots c) idx = Ok slot)
              [1] slots
    ∧ dict_reader <$> files w' !! schedule_csv
      = Some (<[first_pos c := r0']> (all_schedules c))
    ∧ files w' !! appointments_csv
      = Some (default [] (files shifted_world !! appointments_csv)
              ++ ((fun slot : Z * pykey =>
                     [lit "alice"; lit "drsmith"; selected_date c;
                      key_text slot.2]) <$> slots))
    ∧ stdin w' = [].
Proof.
  eexists _, _.
  eapply (patient_select_slots_success ascii_isdigit ascii_int
            ascii_repr_list (lit "alice") (lit "drsmith") schedule_csv
            appointments_csv shifted_world _ _ _ day_header _ [] [1]).
  - by vm_compute.
  - by vm_compute.
  - split; [done|]. split; [|by repeat constructor].
    assert (H : bool_decide (NoDup day_header) = true) by (by vm_compute).
    by apply bool_decide_eq_true in H.
  - vm_compute. reflexivity.
  - by vm_compute.
  - vm_compute. reflexivity.
Defined.

(** * Viewing after a cancellation *)

Lemma view_appointments_ledger (username : pystr) (w : world)
    (ledger : list appointment) :
  files w !! appointments_csv = Some (ledger_file ledger) →
  view_appointments username w
  = Ok (appointment_row
        <$> filter (fun a => bool_decide (a_patient a = username)) ledger).
Proof.
  intros Hfile. unfold view_appointments.
  rewrite Hfile, dict_reader_ledger_file.
  apply (rfilter_fmap_pure appointment_row _
           (fun a => bool_decide (a_patient a = username))).
  apply Forall_forall. intros a _.
  assert (dict_get (Some (lit "patient_username")) (appointment_row a)
          = Some (VStr (a_patient a))) as Hp by (by vm_compute).
  unfold field, getitem. by rewrite Hp.
Qed.

(** X19.  After a successful cancellation the view of the patient lists, in
    ledger order, their appointments other than those of the cancelled
    date and slot. *)
Theorem view_after_cancel (repr_list : list pystr → pystr)
    (username : pystr) (w : world) (ledger : list appointment)
    (line1 line2 : pystr) (rest : list pystr) :
  files w !! appointments_csv = Some (ledger_file ledger) →
  stdin w = line1 :: line2 :: rest →
  existsb (cancels username (strip line1) (strip line2)) ledger = true →
  view_appointments username (cancel_appointment repr_list username w).1
  = Ok (appointment_row
        <$> filter (fun a => a_patient a = username
                             ∧ ¬ (a_date a = strip line1
                                  ∧ a_slot a = strip line2)) ledger).
Proof.
  intros Hfile Hin Hhit.
  rewrite (cancel_appointment_on_ledger repr_list username w ledger line1
             line2 rest Hfile Hin), Hhit.
  cbn [fst].
  rewrite (view_appointments_ledger username _
             (filter (fun a => negb (cancels username (strip line1)
                                       (strip line2) a)) ledger))
    by (cbn [files]; by rewrite lookup_insert_eq).
  do 2 f_equal. rewrite list_filter_filter. apply list_filter_iff.
  intros a. unfold cancels.
  rewrite negb_True, !andb_True, !bool_decide_spec. tauto.
Qed.

Lemma view_after_cancel_witness :
  view_appointments (lit "alice")
    (cancel_appointment ascii_repr_list (lit "alice") twice_booked_world).1
  = Ok (appointment_row
        <$> filter (fun a => a_patient a = lit "alice"
                             ∧ ¬ (a_date a = strip (lit "2024/03/01")
                                  ∧ a_slot a = strip (lit "09:00")))
              [alice_0900; bob_1000; alice_0900]).
Proof.
  apply (view_after_cancel ascii_repr_list (lit "alice") twice_booked_world
           [alice_0900; bob_1000; alice_0900] (lit "2024/03/01")
           (lit "09:00") []); by vm_compute.
Defined.
